(** * Shopping-list API (backend/server.js): handlers over a relational store

    The seven Express handlers of [backend/server.js] are embedded as small
    programs that submit SQL text with bound values to the store and shape a
    JSON response.  The store is the [shopping_items] table declared by
    [initDB]; every statement the handlers submit is given its meaning on
    that table, with the column types of the schema: a value that does not
    fit its column makes the query throw, and the handler's [catch] answers
    500.

    Scope: the store is up and the table exists, so a query throws only for
    what it is given.  Numbers are integers and timestamps are instants on
    an integer clock.  A body member is absent, [null] or of the type the API
    declares for it; the [:id] path segment denotes an integer. *)

From Stdlib Require Import ZArith List String Ascii Bool Lia Permutation Sorted.
From Stdlib Require Import DecimalString.
Import ListNotations.

Local Open Scope string_scope.
Local Open Scope list_scope.
Local Open Scope Z_scope.
Local Set Warnings "-register-all".

(** ** JSON documents written by [res.json] *)

(** [JTime t] stands for the ISO-8601 text of the instant [t]
    ([Date.prototype.toISOString] / [toJSON]). *)
Inductive json : Type :=
| JNull
| JBool (b : bool)
| JNum (n : Z)
| JStr (s : string)
| JTime (t : Z)
| JArr (items : list json)
| JObj (members : list (string * json)).

Fixpoint member (key : string) (members : list (string * json)) : option json :=
  match members with
  | [] => None
  | (k, v) :: rest => if String.eqb k key then Some v else member key rest
  end.

Definition get_member (key : string) (doc : json) : option json :=
  match doc with
  | JObj members => member key members
  | _ => None
  end.

Record Response : Type := mkResponse { status : Z; payload : json }.

(** ** Requests *)

(** A member of the JSON request body: not sent ([undefined] after
    destructuring), sent as [null], or sent with a value of the type the
    API declares for it ([name] a string, [quantity] an integer,
    [purchased] a boolean). *)
Inductive field (A : Type) : Type :=
| Absent
| Null
| Val (a : A).
Arguments Absent {A}.
Arguments Null {A}.
Arguments Val {A} a.

Record Body : Type := mkBody {
  body_name : field string;
  body_quantity : field Z;
  body_purchased : field bool
}.

(** The [:id] path segment is carried as the integer it denotes. *)
Inductive Request : Type :=
| GetHealth
| GetItems
| GetItem (id : Z)
| PostItem (body : Body)
| PutItem (id : Z) (body : Body)
| DeleteItem (id : Z)
| GetStats.

(** ** The store: table [shopping_items] *)

(** Values bound to the placeholders [$1], [$2], ... of a statement:
    [null]/[undefined], a number, a boolean or a string. *)
Inductive Param : Type :=
| PNull
| PInt (n : Z)
| PBool (b : bool)
| PText (s : string).

Definition bound {A : Type} (inj : A -> Param) (f : field A) : Param :=
  match f with
  | Absent | Null => PNull
  | Val a => inj a
  end.

(** One row of [shopping_items].  [id] is the primary key and [name] is
    [NOT NULL]; the three columns that only carry a [DEFAULT] are nullable. *)
Record Row : Type := mkRow {
  id : Z;
  name : string;
  quantity : option Z;
  purchased : option bool;
  created_at : option Z
}.

(** The table in physical order and the last value handed out by the
    sequence behind [id SERIAL]. *)
Record DB : Type := mkDB {
  shopping_items : list Row;
  shopping_items_id_seq : Z
}.

(** The state right after [initDB] created the table. *)
Definition initDB : DB := mkDB [] 0.

(** A row of a result set: a table row ([SELECT *], [RETURNING *]) or the
    single column of a [COUNT( * )]. *)
Inductive ResultRow : Type :=
| ItemRow (r : Row)
| CountRow (column : string) (n : Z).

(** *** Column types *)

Definition int4_min : Z := -2147483648.
Definition int4_max : Z := 2147483647.

Definition in_int4 (n : Z) : bool := (int4_min <=? n) && (n <=? int4_max).

(** A placeholder compared with or assigned to an [INTEGER] column.
    [None]: the value is rejected; [Some None]: SQL NULL.  The handlers bind
    numbers (and the decimal path segment) here; another kind of value is
    rejected. *)
Definition as_int4 (p : Param) : option (option Z) :=
  match p with
  | PNull => Some None
  | PInt n => if in_int4 n then Some (Some n) else None
  | PBool _ | PText _ => None
  end.

(** A placeholder assigned to the [BOOLEAN] column. *)
Definition as_boolean (p : Param) : option (option bool) :=
  match p with
  | PNull => Some None
  | PBool b => Some (Some b)
  | PInt _ | PText _ => None
  end.

Definition is_nul (c : ascii) : bool := Ascii.eqb c zero.
Definition is_space (c : ascii) : bool := Ascii.eqb c " "%char.

Fixpoint chars (s : string) : list ascii :=
  match s with
  | EmptyString => []
  | String c rest => c :: chars rest
  end.

Fixpoint text (cs : list ascii) : string :=
  match cs with
  | [] => EmptyString
  | c :: rest => String c (text rest)
  end.

(** Assignment to [VARCHAR(255)]: a text with a NUL character is rejected; a
    longer text is rejected unless the excess is all spaces, which are then
    cut off. *)
Definition varchar255 (s : string) : option string :=
  let cs := chars s in
  if existsb is_nul cs then None
  else if (Z.of_nat (List.length cs) <=? 255) then Some s
  else if forallb is_space (skipn 255 cs) then Some (text (firstn 255 cs))
  else None.

(** A placeholder assigned to the [name] column. *)
Definition as_varchar255 (p : Param) : option (option string) :=
  match p with
  | PNull => Some None
  | PText s => option_map Some (varchar255 s)
  | PInt _ | PBool _ => None
  end.

(** *** [ORDER BY purchased ASC, created_at DESC] *)

(** Ascending puts NULL last, descending puts it first. *)
Definition purchased_rank (p : option bool) : Z :=
  match p with
  | Some false => 0
  | Some true => 1
  | None => 2
  end.

Definition created_before (a b : option Z) : bool :=
  match a, b with
  | None, _ => true
  | Some _, None => false
  | Some x, Some y => y <=? x
  end.

Definition order_by (r1 r2 : Row) : bool :=
  (purchased_rank (purchased r1) <? purchased_rank (purchased r2))
  || ((purchased_rank (purchased r1) =? purchased_rank (purchased r2))
      && created_before (created_at r1) (created_at r2)).

Fixpoint insert_sorted (r : Row) (sorted : list Row) : list Row :=
  match sorted with
  | [] => [r]
  | x :: rest => if order_by r x then r :: x :: rest else x :: insert_sorted r rest
  end.

(** Rows that tie on both keys may come in any order; this is one of them. *)
Definition sort_rows (rows : list Row) : list Row :=
  fold_right insert_sorted [] rows.

(** *** The statements *)

Definition SQL_LIST : string :=
  "SELECT * FROM shopping_items ORDER BY purchased ASC, created_at DESC".
Definition SQL_GET : string :=
  "SELECT * FROM shopping_items WHERE id = $1".
Definition SQL_INSERT : string :=
  "INSERT INTO shopping_items (name, quantity) VALUES ($1, $2) RETURNING *".
Definition SQL_UPDATE : string :=
  "UPDATE shopping_items SET name = COALESCE($1, name), quantity = COALESCE($2, quantity), purchased = COALESCE($3, purchased) WHERE id = $4 RETURNING *".
Definition SQL_DELETE : string :=
  "DELETE FROM shopping_items WHERE id = $1 RETURNING *".
Definition SQL_COUNT_TOTAL : string :=
  "SELECT COUNT(*) as total FROM shopping_items".
Definition SQL_COUNT_PURCHASED : string :=
  "SELECT COUNT(*) as purchased FROM shopping_items WHERE purchased = true".
Definition SQL_COUNT_PENDING : string :=
  "SELECT COUNT(*) as pending FROM shopping_items WHERE purchased = false".

(** [WHERE id = $1]: no row matches a NULL. *)
Definition id_is (key : option Z) (r : Row) : bool :=
  match key with
  | Some k => id r =? k
  | None => false
  end.

(** [WHERE purchased = true] / [= false]: a NULL flag matches neither. *)
Definition purchased_is (b : bool) (r : Row) : bool :=
  match purchased r with
  | Some p => Bool.eqb p b
  | None => false
  end.

Definition coalesce {A : Type} (supplied : option A) (stored : A) : A :=
  match supplied with
  | Some v => v
  | None => stored
  end.

Definition coalesce_null {A : Type} (supplied stored : option A) : option A :=
  match supplied with
  | Some v => Some v
  | None => stored
  end.

(** A query answers with its rows and the new state, or throws ([None]). *)
Definition Answer : Type := option (list ResultRow) * DB.

Definition rejected (db : DB) : Answer := (None, db).

Definition exec_list (db : DB) : Answer :=
  (Some (map ItemRow (sort_rows (shopping_items db))), db).

Definition exec_get (p1 : Param) (db : DB) : Answer :=
  match as_int4 p1 with
  | Some key => (Some (map ItemRow (filter (id_is key) (shopping_items db))), db)
  | None => rejected db
  end.

(** [INSERT]: the bound values are checked against their columns ([name] is
    [NOT NULL]); [id] comes from the sequence, which stops at the largest
    [INTEGER]; [purchased] and [created_at] come from their defaults.  A row
    whose [id] is already in the table violates the primary key: the insert
    fails and the sequence value is spent. *)
Definition exec_insert (now : Z) (p1 p2 : Param) (db : DB) : Answer :=
  match as_varchar255 p1, as_int4 p2 with
  | Some (Some nm), Some qty =>
      let next := shopping_items_id_seq db + 1 in
      if next <=? int4_max then
        if existsb (id_is (Some next)) (shopping_items db)
        then (None, mkDB (shopping_items db) next)
        else
          let row := mkRow next nm qty (Some false) (Some now) in
          (Some [ItemRow row], mkDB (shopping_items db ++ [row]) next)
      else rejected db
  | _, _ => rejected db
  end.

Definition update_row (nm : option string) (qty : option Z) (flag : option bool)
    (r : Row) : Row :=
  mkRow (id r)
        (coalesce nm (name r))
        (coalesce_null qty (quantity r))
        (coalesce_null flag (purchased r))
        (created_at r).

(** [UPDATE]: the bound values are checked against the column types before
    any row is visited. *)
Definition exec_update (p1 p2 p3 p4 : Param) (db : DB) : Answer :=
  match as_varchar255 p1, as_int4 p2, as_boolean p3, as_int4 p4 with
  | Some nm, Some qty, Some flag, Some key =>
      let hit r := if id_is key r then update_row nm qty flag r else r in
      (Some (map ItemRow (map (update_row nm qty flag)
                              (filter (id_is key) (shopping_items db)))),
       mkDB (map hit (shopping_items db)) (shopping_items_id_seq db))
  | _, _, _, _ => rejected db
  end.

Definition exec_delete (p1 : Param) (db : DB) : Answer :=
  match as_int4 p1 with
  | Some key =>
      (Some (map ItemRow (filter (id_is key) (shopping_items db))),
       mkDB (filter (fun r => negb (id_is key r)) (shopping_items db))
            (shopping_items_id_seq db))
  | None => rejected db
  end.

Definition count (keep : Row -> bool) (db : DB) : Z :=
  Z.of_nat (List.length (filter keep (shopping_items db))).

Definition exec_count (column : string) (keep : Row -> bool) (db : DB) : Answer :=
  (Some [CountRow column (count keep db)], db).

(** [pool.query(sql, values)]: the statement is recognised by its text;
    anything else is rejected by the store.  [now] is the store's
    [CURRENT_TIMESTAMP]. *)
Definition pool_query (now : Z) (sql : string) (values : list Param) (db : DB)
    : Answer :=
  if String.eqb sql SQL_LIST then
    match values with [] => exec_list db | _ => rejected db end
  else if String.eqb sql SQL_GET then
    match values with [p1] => exec_get p1 db | _ => rejected db end
  else if String.eqb sql SQL_INSERT then
    match values with [p1; p2] => exec_insert now p1 p2 db | _ => rejected db end
  else if String.eqb sql SQL_UPDATE then
    match values with
    | [p1; p2; p3; p4] => exec_update p1 p2 p3 p4 db
    | _ => rejected db
    end
  else if String.eqb sql SQL_DELETE then
    match values with [p1] => exec_delete p1 db | _ => rejected db end
  else if String.eqb sql SQL_COUNT_TOTAL then
    match values with
    | [] => exec_count "total" (fun _ => true) db
    | _ => rejected db
    end
  else if String.eqb sql SQL_COUNT_PURCHASED then
    match values with
    | [] => exec_count "purchased" (purchased_is true) db
    | _ => rejected db
    end
  else if String.eqb sql SQL_COUNT_PENDING then
    match values with
    | [] => exec_count "pending" (purchased_is false) db
    | _ => rejected db
    end
  else rejected db.

(** ** Handlers *)

(** A handler is a program that answers at once or awaits a query and goes
    on with its outcome: [Some rows] when the store answers, [None] when
    [pool.query] throws and control passes to the handler's [catch]. *)
Inductive Prog : Type :=
| Respond (res : Response)
| Query (sql : string) (values : list Param)
        (next : option (list ResultRow) -> Prog).

(** [await pool.query(sql, values)] inside [try { ... } catch { ... }]. *)
Definition await (sql : string) (values : list Param) (catch : Prog)
    (next : list ResultRow -> Prog) : Prog :=
  Query sql values
        (fun result => match result with
                       | Some rows => next rows
                       | None => catch
                       end).

Definition res_json (code : Z) (members : list (string * json)) : Prog :=
  Respond (mkResponse code (JObj members)).

Definition failure (code : Z) (error : string) : Prog :=
  res_json code [("success", JBool false); ("error", JStr error)].

Definition opt_json {A : Type} (inj : A -> json) (v : option A) : json :=
  match v with
  | Some a => inj a
  | None => JNull
  end.

Definition item_json (r : Row) : json :=
  JObj [("id", JNum (id r));
        ("name", JStr (name r));
        ("quantity", opt_json JNum (quantity r));
        ("purchased", opt_json JBool (purchased r));
        ("created_at", opt_json JTime (created_at r))].

(** A result row as a JavaScript object.  A [COUNT] arrives as a decimal
    string; [column_int] is [parseInt(row.column)], which reads it back, and
    is [NaN] (written [null]) on a row without such a count. *)
Definition row_json (r : ResultRow) : json :=
  match r with
  | ItemRow it => item_json it
  | CountRow column n => JObj [(column, JStr (NilZero.string_of_int (Z.to_int n)))]
  end.

Definition column_int (column : string) (r : ResultRow) : json :=
  match r with
  | CountRow c n => if String.eqb c column then JNum n else JNull
  | ItemRow _ => JNull
  end.

(** [{ success: true, data: result.rows[0] }]: an undefined member is left
    out of the document. *)
Definition data_first (rows : list ResultRow) : list (string * json) :=
  match rows with
  | r :: _ => [("success", JBool true); ("data", row_json r)]
  | [] => [("success", JBool true)]
  end.

Definition is_empty {A : Type} (l : list A) : bool :=
  match l with
  | [] => true
  | _ :: _ => false
  end.

(** JavaScript truthiness of a body member. *)
Definition truthy_string (f : field string) : bool :=
  match f with
  | Val s => negb (String.eqb s "")
  | Absent | Null => false
  end.

(** [quantity && quantity > 0 ? quantity : 1] *)
Definition qty (quantity : field Z) : Z :=
  match quantity with
  | Val q => if negb (q =? 0) && (0 <? q) then q else 1
  | Absent | Null => 1
  end.

Definition get_health (now : Z) : Prog :=
  res_json 200 [("status", JStr "ok"); ("timestamp", JTime now)].

Definition get_items : Prog :=
  let catch := failure 500 "Error fetching items" in
  await SQL_LIST [] catch (fun rows =>
    res_json 200 [("success", JBool true); ("data", JArr (map row_json rows))]).

Definition get_item (id : Z) : Prog :=
  let catch := failure 500 "Error fetching item" in
  await SQL_GET [PInt id] catch (fun rows =>
    if is_empty rows then failure 404 "Item not found"
    else res_json 200 (data_first rows)).

Definition post_item (body : Body) : Prog :=
  let catch := failure 500 "Error creating item" in
  let name := body_name body in
  let quantity := body_quantity body in
  if negb (truthy_string name) then failure 400 "Item name is required"
  else
    await SQL_INSERT [bound PText name; PInt (qty quantity)] catch (fun rows =>
      res_json 201 (data_first rows)).

Definition put_item (id : Z) (body : Body) : Prog :=
  let catch := failure 500 "Error updating item" in
  let name := body_name body in
  let quantity := body_quantity body in
  let purchased := body_purchased body in
  await SQL_UPDATE
        [bound PText name; bound PInt quantity; bound PBool purchased; PInt id]
        catch (fun rows =>
    if is_empty rows then failure 404 "Item not found"
    else res_json 200 (data_first rows)).

Definition delete_item (id : Z) : Prog :=
  let catch := failure 500 "Error deleting item" in
  await SQL_DELETE [PInt id] catch (fun rows =>
    if is_empty rows then failure 404 "Item not found"
    else res_json 200 [("success", JBool true); ("message", JStr "Item deleted")]).

(** [rows[0].column] throws when there is no first row. *)
Definition first_column (column : string) (rows : list ResultRow) (catch : Prog)
    (next : json -> Prog) : Prog :=
  match rows with
  | r :: _ => next (column_int column r)
  | [] => catch
  end.

Definition get_stats : Prog :=
  let catch := failure 500 "Error fetching stats" in
  await SQL_COUNT_TOTAL [] catch (fun total =>
  await SQL_COUNT_PURCHASED [] catch (fun purchased =>
  await SQL_COUNT_PENDING [] catch (fun pending =>
    first_column "total" total catch (fun t =>
    first_column "purchased" purchased catch (fun p =>
    first_column "pending" pending catch (fun q =>
      res_json 200 [("success", JBool true);
                    ("data", JObj [("total", t); ("purchased", p); ("pending", q)])])))))).

(** The router. *)
Definition app (now : Z) (req : Request) : Prog :=
  match req with
  | GetHealth => get_health now
  | GetItems => get_items
  | GetItem id => get_item id
  | PostItem body => post_item body
  | PutItem id body => put_item id body
  | DeleteItem id => delete_item id
  | GetStats => get_stats
  end.

(** ** Running a handler against the store *)

Record Outcome : Type := mkOutcome {
  response : Response;
  store : DB;
  submitted : list (string * list Param)
}.

Fixpoint run (now : Z) (p : Prog) (db : DB) : Outcome :=
  match p with
  | Respond res => mkOutcome res db []
  | Query sql values next =>
      let '(result, db') := pool_query now sql values db in
      let out := run now (next result) db' in
      mkOutcome (response out) (store out) ((sql, values) :: submitted out)
  end.

Definition handle (now : Z) (req : Request) (db : DB) : Outcome :=
  run now (app now req) db.

(** A session: requests served one after the other, each at its instant. *)
Fixpoint serve (reqs : list (Z * Request)) (db : DB) : DB :=
  match reqs with
  | [] => db
  | (now, req) :: rest => serve rest (store (handle now req db))
  end.

Inductive reachable : DB -> Prop :=
| reachable_init : reachable initDB
| reachable_step (now : Z) (req : Request) (db : DB) :
    reachable db -> reachable (store (handle now req db)).

(** ** Notions used in the statements *)

Definition not_found : Response :=
  mkResponse 404 (JObj [("success", JBool false); ("error", JStr "Item not found")]).

Definition server_error (error : string) : Response :=
  mkResponse 500 (JObj [("success", JBool false); ("error", JStr error)]).

Definition bad_request : Response :=
  mkResponse 400 (JObj [("success", JBool false); ("error", JStr "Item name is required")]).

Definition update_values (i : Z) (body : Body) : list Param :=
  [bound PText (body_name body); bound PInt (body_quantity body);
   bound PBool (body_purchased body); PInt i].

(** The row an accepted [INSERT] adds. *)
Definition new_row (now : Z) (db : DB) (nm : string) (q : Z) : Row :=
  mkRow (shopping_items_id_seq db + 1) nm (Some q) (Some false) (Some now).

Definition seq_ahead (db : DB) : Prop :=
  Forall (fun r => id r <= shopping_items_id_seq db) (shopping_items db).

(** The value a body member supplies to [COALESCE], if any. *)
Definition supplied {A : Type} (f : field A) : option A :=
  match f with
  | Val a => Some a
  | Absent | Null => None
  end.

Definition field_fits {A : Type} (ok : A -> bool) (f : field A) : bool :=
  match f with
  | Val a => ok a
  | Absent | Null => true
  end.

Definition fits_varchar255 (s : string) : bool :=
  match varchar255 s with
  | Some _ => true
  | None => false
  end.

(** The values of an update body fit the columns they are assigned to. *)
Definition values_fit (body : Body) : bool :=
  field_fits fits_varchar255 (body_name body)
  && field_fits in_int4 (body_quantity body).

Definition stored_name (f : field string) : option string :=
  match f with
  | Val s => varchar255 s
  | Absent | Null => None
  end.

(** What an accepted [UPDATE] makes of a row it visits. *)
Definition updated (body : Body) (r : Row) : Row :=
  update_row (stored_name (body_name body)) (supplied (body_quantity body))
             (supplied (body_purchased body)) r.

(** No row has a NULL [purchased]. *)
Definition flags_set (db : DB) : Prop :=
  Forall (fun r => purchased r <> None) (shopping_items db).

(** Every row has a quantity of at least 1. *)
Definition quantities_positive (db : DB) : Prop :=
  Forall (fun r => exists q, quantity r = Some q /\ 1 <= q) (shopping_items db).

Definition is_update (req : Request) : bool :=
  match req with
  | PutItem _ _ => true
  | _ => false
  end.

(** [a] may be listed before [b]. *)
Definition listed (a b : Row) : Prop := order_by a b = true.

(** The endpoint a request is routed to, without the request's inputs. *)
Inductive Route : Type :=
| HealthRoute
| ItemsRoute
| ItemRoute
| CreateRoute
| UpdateRoute
| DeleteRoute
| StatsRoute.

Definition route (req : Request) : Route :=
  match req with
  | GetHealth => HealthRoute
  | GetItems => ItemsRoute
  | GetItem _ => ItemRoute
  | PostItem _ => CreateRoute
  | PutItem _ _ => UpdateRoute
  | DeleteItem _ => DeleteRoute
  | GetStats => StatsRoute
  end.

(** The SQL texts written in each handler, in the order it awaits them. *)
Definition route_sql (r : Route) : list string :=
  match r with
  | HealthRoute => []
  | ItemsRoute => [SQL_LIST]
  | ItemRoute => [SQL_GET]
  | CreateRoute => [SQL_INSERT]
  | UpdateRoute => [SQL_UPDATE]
  | DeleteRoute => [SQL_DELETE]
  | StatsRoute => [SQL_COUNT_TOTAL; SQL_COUNT_PURCHASED; SQL_COUNT_PENDING]
  end.

(** What the schema keeps true of every state the handlers can reach. *)
Definition consistent (db : DB) : Prop :=
  flags_set db /\ seq_ahead db /\ NoDup (map id (shopping_items db)).

(** The change one request can make to the store. *)
Inductive effect (now : Z) (db : DB) : DB -> Prop :=
| effect_none : effect now db db
| effect_spend :
    shopping_items_id_seq db + 1 <= int4_max ->
    effect now db (mkDB (shopping_items db) (shopping_items_id_seq db + 1))
| effect_insert (nm : string) (q : Z) :
    shopping_items_id_seq db + 1 <= int4_max ->
    effect now db (mkDB (shopping_items db ++ [new_row now db nm q])
                        (shopping_items_id_seq db + 1))
| effect_update (i : Z) (body : Body) :
    effect now db
           (mkDB (map (fun r => if id_is (Some i) r then updated body r else r)
                      (shopping_items db))
                 (shopping_items_id_seq db))
| effect_delete (i : Z) :
    effect now db
           (mkDB (filter (fun r => negb (id_is (Some i) r)) (shopping_items db))
                 (shopping_items_id_seq db)).

(** A session used in the examples: create A, create B, mark A purchased. *)
Definition session : list (Z * Request) :=
  [(10, PostItem (mkBody (Val "A") Absent Absent));
   (11, PostItem (mkBody (Val "B") (Val (-3)) (Val true)));
   (20, PutItem 1 (mkBody Absent Absent (Val true)))].

(** ** Startup: the schema initializer *)

(** The database the pool is connected to: the table [shopping_items]
    exists ([Some]) or does not ([None]), as before [initDB] has run or when
    it failed. *)
Definition Database : Type := option DB.

Definition SQL_CREATE : string := "
      CREATE TABLE IF NOT EXISTS shopping_items (
        id SERIAL PRIMARY KEY,
        name VARCHAR(255) NOT NULL,
        quantity INTEGER DEFAULT 1,
        purchased BOOLEAN DEFAULT FALSE,
        created_at TIMESTAMP DEFAULT CURRENT_TIMESTAMP
      )
    ".

(** [pool.query] on the database.  [CREATE TABLE IF NOT EXISTS] makes the
    empty table, with a fresh sequence, when there is none and keeps an
    existing table as it is; every other statement throws when its table
    does not exist. *)
Definition database_query (now : Z) (sql : string) (values : list Param)
    (d : Database) : option (list ResultRow) * Database :=
  if String.eqb sql SQL_CREATE then
    match values with
    | [] => (Some [], Some (match d with
                            | Some db => db
                            | None => mkDB [] 0
                            end))
    | _ :: _ => (None, d)
    end
  else
    match d with
    | Some db =>
        let '(result, db') := pool_query now sql values db in
        (result, Some db')
    | None => (None, None)
    end.

(** What [initDB] writes to the console. *)
Inductive Console : Type :=
| DatabaseInitialized
| ErrorInitializingDatabase.

(** [initDB()]: one [CREATE TABLE IF NOT EXISTS] inside [try]/[catch]; the
    failure is logged and nothing is thrown further. *)
Definition run_initDB (now : Z) (d : Database) : Console * Database :=
  match database_query now SQL_CREATE [] d with
  | (Some _, d') => (DatabaseInitialized, d')
  | (None, d') => (ErrorInitializingDatabase, d')
  end.

Record Served : Type := mkServed {
  answer : Response;
  database : Database;
  queries : list (string * list Param)
}.

Fixpoint run_database (now : Z) (p : Prog) (d : Database) : Served :=
  match p with
  | Respond res => mkServed res d []
  | Query sql values next =>
      let '(result, d') := database_query now sql values d in
      let out := run_database now (next result) d' in
      mkServed (answer out) (database out) ((sql, values) :: queries out)
  end.

(** A request served by the process, whether or not the table exists. *)
Definition serve_request (now : Z) (req : Request) (d : Database) : Served :=
  run_database now (app now req) d.

(** A session served by the process. *)
Fixpoint serve_requests (reqs : list (Z * Request)) (d : Database) : Database :=
  match reqs with
  | [] => d
  | (now, req) :: rest => serve_requests rest (database (serve_request now req d))
  end.

(** A program whose statements all work on the table. *)
Inductive table_only : Prog -> Prop :=
| table_only_respond (res : Response) : table_only (Respond res)
| table_only_query (sql : string) (values : list Param)
    (next : option (list ResultRow) -> Prog) :
    String.eqb sql SQL_CREATE = false ->
    (forall result, table_only (next result)) ->
    table_only (Query sql values next).

(** ** Further notions used in the statements *)

(** The requests that only read. *)
Definition is_read (req : Request) : bool :=
  match req with
  | GetHealth | GetItems | GetItem _ | GetStats => true
  | PostItem _ | PutItem _ _ | DeleteItem _ => false
  end.

Definition without_null {A : Type} (f : field A) : field A :=
  match f with
  | Null => Absent
  | Absent => Absent
  | Val a => Val a
  end.

(** The body with its [null] members left out. *)
Definition without_nulls (body : Body) : Body :=
  mkBody (without_null (body_name body)) (without_null (body_quantity body))
         (without_null (body_purchased body)).

(** A row as the column types allow it, with [id] handed out by a sequence
    that has reached [seq]. *)
Definition row_ok (seq : Z) (r : Row) : Prop :=
  1 <= id r <= seq
  /\ (String.length (name r) <= 255)%nat
  /\ existsb is_nul (chars (name r)) = false
  /\ (exists q, quantity r = Some q /\ int4_min <= q <= int4_max)
  /\ (exists b, purchased r = Some b)
  /\ (exists t, created_at r = Some t).

Definition schema_ok (db : DB) : Prop :=
  0 <= shopping_items_id_seq db <= int4_max
  /\ Forall (row_ok (shopping_items_id_seq db)) (shopping_items db).

(** No two different rows tie on both keys of the listing. *)
Definition keys_distinct (rows : list Row) : Prop :=
  forall a b, In a rows -> In b rows ->
    purchased a = purchased b -> created_at a = created_at b -> a = b.

(** * Properties *)

(** ** The statements as the store reads them *)

Lemma pool_query_list now db : pool_query now SQL_LIST [] db = exec_list db.
Proof. reflexivity. Qed.

Lemma pool_query_get now p1 db : pool_query now SQL_GET [p1] db = exec_get p1 db.
Proof. reflexivity. Qed.

Lemma pool_query_insert now p1 p2 db :
  pool_query now SQL_INSERT [p1; p2] db = exec_insert now p1 p2 db.
Proof. reflexivity. Qed.

Lemma pool_query_update now p1 p2 p3 p4 db :
  pool_query now SQL_UPDATE [p1; p2; p3; p4] db = exec_update p1 p2 p3 p4 db.
Proof. reflexivity. Qed.

Lemma pool_query_delete now p1 db :
  pool_query now SQL_DELETE [p1] db = exec_delete p1 db.
Proof. reflexivity. Qed.

Lemma pool_query_total now db :
  pool_query now SQL_COUNT_TOTAL [] db = exec_count "total" (fun _ => true) db.
Proof. reflexivity. Qed.

Lemma pool_query_purchased now db :
  pool_query now SQL_COUNT_PURCHASED [] db
  = exec_count "purchased" (purchased_is true) db.
Proof. reflexivity. Qed.

Lemma pool_query_pending now db :
  pool_query now SQL_COUNT_PENDING [] db
  = exec_count "pending" (purchased_is false) db.
Proof. reflexivity. Qed.

Lemma run_query now sql values next db :
  run now (Query sql values next) db
  = let out := run now (next (fst (pool_query now sql values db)))
                       (snd (pool_query now sql values db)) in
    mkOutcome (response out) (store out) ((sql, values) :: submitted out).
Proof. simpl. destruct (pool_query now sql values db); reflexivity. Qed.

Lemma run_respond now res db : run now (Respond res) db = mkOutcome res db [].
Proof. reflexivity. Qed.

#[local] Opaque pool_query.

Create Rewrite HintDb store_eqs.
#[local] Hint Rewrite run_query run_respond pool_query_list pool_query_get
  pool_query_insert pool_query_update pool_query_delete pool_query_total
  pool_query_purchased pool_query_pending : store_eqs.

(** Unfolds a handler down to the statements the store executes. *)
Ltac step_handler :=
  unfold handle, app, get_health, get_items, get_item, post_item, put_item,
    delete_item, get_stats, await, failure, res_json;
  autorewrite with store_eqs.

(** ** Handlers in closed form *)

Lemma handle_get_health now db :
  handle now GetHealth db
  = mkOutcome (mkResponse 200 (JObj [("status", JStr "ok"); ("timestamp", JTime now)]))
              db [].
Proof. reflexivity. Qed.

Lemma handle_get_items now db :
  handle now GetItems db
  = mkOutcome
      (mkResponse 200
         (JObj [("success", JBool true);
                ("data", JArr (map item_json (sort_rows (shopping_items db))))]))
      db [(SQL_LIST, [])].
Proof.
  step_handler. unfold exec_list. simpl. rewrite map_map. reflexivity.
Qed.

Lemma handle_get_item now i db :
  handle now (GetItem i) db
  = let hits := filter (id_is (Some i)) (shopping_items db) in
    mkOutcome
      (if in_int4 i
       then match hits with
            | [] => not_found
            | r :: _ =>
                mkResponse 200 (JObj [("success", JBool true); ("data", item_json r)])
            end
       else server_error "Error fetching item")
      db [(SQL_GET, [PInt i])].
Proof.
  step_handler. unfold exec_get, as_int4, rejected.
  destruct (in_int4 i); simpl; [|reflexivity].
  destruct (filter _ _); reflexivity.
Qed.

Lemma handle_delete_item now i db :
  handle now (DeleteItem i) db
  = let hits := filter (id_is (Some i)) (shopping_items db) in
    if in_int4 i
    then mkOutcome
           (match hits with
            | [] => not_found
            | _ :: _ =>
                mkResponse 200 (JObj [("success", JBool true);
                                      ("message", JStr "Item deleted")])
            end)
           (mkDB (filter (fun r => negb (id_is (Some i) r)) (shopping_items db))
                 (shopping_items_id_seq db))
           [(SQL_DELETE, [PInt i])]
    else mkOutcome (server_error "Error deleting item") db [(SQL_DELETE, [PInt i])].
Proof.
  step_handler. unfold exec_delete, as_int4, rejected.
  destruct (in_int4 i); simpl; [|reflexivity].
  destruct (filter _ _); reflexivity.
Qed.

Lemma handle_get_stats now db :
  handle now GetStats db
  = mkOutcome
      (mkResponse 200
         (JObj [("success", JBool true);
                ("data", JObj [("total", JNum (count (fun _ => true) db));
                               ("purchased", JNum (count (purchased_is true) db));
                               ("pending", JNum (count (purchased_is false) db))])]))
      db
      [(SQL_COUNT_TOTAL, []); (SQL_COUNT_PURCHASED, []); (SQL_COUNT_PENDING, [])].
Proof. step_handler. reflexivity. Qed.

Lemma handle_post_item now body db :
  handle now (PostItem body) db
  = if truthy_string (body_name body)
    then
      let values := [bound PText (body_name body); PInt (qty (body_quantity body))] in
      let ans := exec_insert now (bound PText (body_name body))
                             (PInt (qty (body_quantity body))) db in
      mkOutcome
        (match fst ans with
         | Some rows => mkResponse 201 (JObj (data_first rows))
         | None => server_error "Error creating item"
         end)
        (snd ans) [(SQL_INSERT, values)]
    else mkOutcome bad_request db [].
Proof.
  step_handler. destruct (truthy_string (body_name body)); simpl; [|reflexivity].
  autorewrite with store_eqs. simpl.
  destruct (exec_insert _ _ _ _) as [[rows|] db']; reflexivity.
Qed.

Lemma handle_put_item now i body db :
  handle now (PutItem i body) db
  = let ans := exec_update (bound PText (body_name body))
                           (bound PInt (body_quantity body))
                           (bound PBool (body_purchased body)) (PInt i) db in
    mkOutcome
      (match fst ans with
       | Some [] => not_found
       | Some (r :: _) =>
           mkResponse 200 (JObj [("success", JBool true); ("data", row_json r)])
       | None => server_error "Error updating item"
       end)
      (snd ans) [(SQL_UPDATE, update_values i body)].
Proof.
  step_handler. simpl.
  destruct (exec_update _ _ _ _ _) as [[[|r rows]|] db']; reflexivity.
Qed.

(** ** The store's statements *)

Lemma existsb_id_fresh rows k :
  Forall (fun r => id r < k) rows -> existsb (id_is (Some k)) rows = false.
Proof.
  induction 1 as [|r rows Hr _ IH]; simpl; [reflexivity|].
  rewrite IH, orb_false_r. apply Z.eqb_neq. lia.
Qed.

Lemma exec_insert_rejects now p1 p2 db db' :
  exec_insert now p1 p2 db = (None, db') ->
  db' = db
  \/ (shopping_items_id_seq db + 1 <= int4_max
      /\ db' = mkDB (shopping_items db) (shopping_items_id_seq db + 1)).
Proof.
  unfold exec_insert, rejected.
  destruct (as_varchar255 p1) as [[nm|]|]; destruct (as_int4 p2) as [q|];
    try (intros [= <-]; left; reflexivity).
  destruct (_ <=? _) eqn:Hseq; [|intros [= <-]; left; reflexivity].
  destruct (existsb _ _); [|discriminate].
  intros [= <-]. right. apply Z.leb_le in Hseq. auto.
Qed.

Lemma exec_insert_keeps_rows now p1 p2 db db' :
  exec_insert now p1 p2 db = (None, db') -> shopping_items db' = shopping_items db.
Proof.
  intros H. apply exec_insert_rejects in H. destruct H as [->|[_ ->]]; reflexivity.
Qed.

Lemma exec_insert_answers now nm q db rows db' :
  exec_insert now (PText nm) (PInt q) db = (Some rows, db') ->
  exists nm',
    varchar255 nm = Some nm' /\ in_int4 q = true
    /\ shopping_items_id_seq db + 1 <= int4_max
    /\ rows = [ItemRow (new_row now db nm' q)]
    /\ db' = mkDB (shopping_items db ++ [new_row now db nm' q])
                  (shopping_items_id_seq db + 1).
Proof.
  unfold exec_insert, rejected, as_varchar255, as_int4.
  destruct (varchar255 nm) as [nm'|]; simpl; [|discriminate].
  destruct (in_int4 q); [|discriminate].
  destruct (_ <=? _) eqn:Hseq; [|discriminate].
  destruct (existsb _ _); [discriminate|].
  intros [= <- <-]. exists nm'. apply Z.leb_le in Hseq. auto.
Qed.

Lemma exec_insert_accepts now nm nm' q db :
  varchar255 nm = Some nm' -> in_int4 q = true ->
  shopping_items_id_seq db < int4_max -> seq_ahead db ->
  exec_insert now (PText nm) (PInt q) db
  = (Some [ItemRow (new_row now db nm' q)],
     mkDB (shopping_items db ++ [new_row now db nm' q])
          (shopping_items_id_seq db + 1)).
Proof.
  intros Hnm Hq Hseq Hahead.
  unfold exec_insert, as_varchar255, as_int4. rewrite Hnm, Hq. simpl.
  replace (_ <=? _) with true by (symmetry; apply Z.leb_le; lia).
  rewrite existsb_id_fresh; [reflexivity|].
  eapply Forall_impl; [|exact Hahead]. simpl. intros; lia.
Qed.

Lemma exec_update_body i body db :
  exec_update (bound PText (body_name body)) (bound PInt (body_quantity body))
              (bound PBool (body_purchased body)) (PInt i) db
  = if values_fit body && in_int4 i
    then (Some (map ItemRow (map (updated body)
                                 (filter (id_is (Some i)) (shopping_items db)))),
          mkDB (map (fun r => if id_is (Some i) r then updated body r else r)
                    (shopping_items db))
               (shopping_items_id_seq db))
    else (None, db).
Proof.
  destruct body as [nmf qf pf].
  unfold exec_update, values_fit, updated, rejected, fits_varchar255; simpl.
  destruct nmf as [| |nm]; simpl;
    try (destruct (varchar255 nm); simpl);
    destruct qf as [| |q]; simpl;
    try (destruct (in_int4 q); simpl);
    destruct pf as [| |b]; simpl;
    destruct (in_int4 i); reflexivity.
Qed.

Lemma filter_none {A : Type} (f : A -> bool) (l : list A) :
  (forall x, In x l -> f x = false) -> filter f l = [].
Proof.
  induction l as [|x l IH]; simpl; intros H; [reflexivity|].
  rewrite (H x) by auto. apply IH. auto.
Qed.

Lemma filter_all {A : Type} (f : A -> bool) (l : list A) :
  (forall x, In x l -> f x = true) -> filter f l = l.
Proof.
  induction l as [|x l IH]; simpl; intros H; [reflexivity|].
  rewrite (H x) by auto. f_equal. apply IH. auto.
Qed.

Lemma map_untouched {A : Type} (f : A -> A) (l : list A) :
  (forall x, In x l -> f x = x) -> map f l = l.
Proof.
  induction l as [|x l IH]; simpl; intros H; [reflexivity|].
  rewrite (H x) by auto. f_equal. apply IH. auto.
Qed.

Lemma id_is_miss rows i :
  (forall r, In r rows -> id r <> i) ->
  forall r, In r rows -> id_is (Some i) r = false.
Proof. intros H r Hr. simpl. apply Z.eqb_neq. auto. Qed.

Lemma db_eta db : mkDB (shopping_items db) (shopping_items_id_seq db) = db.
Proof. destruct db; reflexivity. Qed.

(** With [id] a key, the rows with a given [id] are the one row that has it. *)
Lemma filter_key rows r :
  NoDup (map id rows) -> In r rows -> filter (id_is (Some (id r))) rows = [r].
Proof.
  induction rows as [|x rows IH]; simpl; intros Hnd Hin; [contradiction|].
  inversion Hnd as [|? ? Hx Hnd']; subst.
  destruct Hin as [->|Hin].
  - rewrite Z.eqb_refl. f_equal. apply filter_none.
    intros y Hy. simpl. apply Z.eqb_neq. intros E. apply Hx.
    rewrite <- E. apply in_map. exact Hy.
  - replace (id x =? id r) with false.
    + apply IH; assumption.
    + symmetry. apply Z.eqb_neq. intros E. apply Hx.
      rewrite E. apply in_map. exact Hin.
Qed.

Lemma key_unique rows r x :
  NoDup (map id rows) -> In r rows -> In x rows -> id x = id r -> x = r.
Proof.
  intros Hkey Hr Hx E.
  assert (H : In x (filter (id_is (Some (id r))) rows)).
  { apply filter_In. split; [exact Hx|]. simpl. apply Z.eqb_eq. exact E. }
  rewrite (filter_key _ _ Hkey Hr) in H. destruct H as [<-|[]]. reflexivity.
Qed.

(** ** Sorting *)

Lemma order_by_total a b : order_by a b = false -> order_by b a = true.
Proof.
  unfold order_by, purchased_rank, created_before.
  destruct (purchased a) as [[|]|], (purchased b) as [[|]|];
    destruct (created_at a), (created_at b); simpl;
    try reflexivity; try discriminate.
  all: rewrite Z.leb_gt, Z.leb_le; lia.
Qed.

Lemma order_by_trans a b c :
  order_by a b = true -> order_by b c = true -> order_by a c = true.
Proof.
  unfold order_by, purchased_rank, created_before.
  destruct (purchased a) as [[|]|], (purchased b) as [[|]|],
           (purchased c) as [[|]|];
    destruct (created_at a), (created_at b), (created_at c); simpl;
    try reflexivity; try discriminate.
  all: rewrite !Z.leb_le; lia.
Qed.

Lemma insert_sorted_perm r l : Permutation (r :: l) (insert_sorted r l).
Proof.
  induction l as [|x l IH]; simpl; [reflexivity|].
  destruct (order_by r x); [reflexivity|].
  rewrite perm_swap. constructor. exact IH.
Qed.

Lemma sort_rows_perm l : Permutation l (sort_rows l).
Proof.
  induction l as [|x l IH]; simpl; [constructor|].
  rewrite <- insert_sorted_perm. constructor. exact IH.
Qed.

Lemma insert_sorted_sorted r l :
  StronglySorted listed l -> StronglySorted listed (insert_sorted r l).
Proof.
  induction 1 as [|x l Hs IH Hx]; simpl.
  - repeat constructor.
  - destruct (order_by r x) eqn:Hrx.
    + constructor; [constructor; assumption|].
      constructor; [exact Hrx|].
      eapply Forall_impl; [|exact Hx].
      intros y Hy. exact (order_by_trans _ _ _ Hrx Hy).
    + constructor; [exact IH|].
      eapply Permutation_Forall; [apply insert_sorted_perm|].
      constructor; [exact (order_by_total _ _ Hrx)|exact Hx].
Qed.

Lemma sort_rows_sorted l : StronglySorted listed (sort_rows l).
Proof.
  induction l as [|x l IH]; simpl; [constructor|].
  apply insert_sorted_sorted. exact IH.
Qed.

Lemma sorted_pair (R : Row -> Row -> Prop) front a mid b back :
  StronglySorted R (front ++ a :: mid ++ b :: back) -> R a b.
Proof.
  induction front as [|x front IH]; simpl; intros H; inversion H; subst.
  - match goal with HF : Forall _ _ |- _ => rewrite Forall_forall in HF; apply HF end.
    apply in_elt.
  - apply IH. assumption.
Qed.

Lemma listed_known a b pa pb ta tb :
  purchased a = Some pa -> purchased b = Some pb ->
  created_at a = Some ta -> created_at b = Some tb ->
  listed a b ->
  (pa = false /\ pb = true) \/ (pa = pb /\ tb <= ta).
Proof.
  unfold listed, order_by, created_before. intros -> -> -> ->.
  destruct pa, pb; simpl; try discriminate; auto.
  all: rewrite Z.leb_le; auto.
Qed.

(** ** What a request can do to the table *)

Lemma handle_effect now req db : effect now db (store (handle now req db)).
Proof.
  destruct req as [| |i|body|i body|i|].
  - rewrite handle_get_health. constructor.
  - rewrite handle_get_items. constructor.
  - rewrite handle_get_item. constructor.
  - rewrite handle_post_item.
    destruct (truthy_string (body_name body)) eqn:Hnm; [|constructor].
    destruct (body_name body) as [| |nm]; try discriminate. simpl.
    destruct (exec_insert now (PText nm) (PInt (qty (body_quantity body))) db)
      as [[rows|] db'] eqn:Hins; simpl.
    + apply exec_insert_answers in Hins.
      destruct Hins as (nm' & _ & _ & Hseq & _ & ->). constructor. exact Hseq.
    + apply exec_insert_rejects in Hins.
      destruct Hins as [->|[Hseq ->]]; constructor. exact Hseq.
  - rewrite handle_put_item, exec_update_body.
    destruct (values_fit body && in_int4 i); simpl; constructor.
  - rewrite handle_delete_item. simpl.
    destruct (in_int4 i); simpl; constructor.
  - rewrite handle_get_stats. constructor.
Qed.

Lemma effect_consistent now db db' :
  effect now db db' -> consistent db -> consistent db'.
Proof.
  unfold consistent, flags_set, seq_ahead.
  intros [|Hseq|nm q Hseq|i body|i] (Hflags & Hahead & Hkey); simpl.
  - auto.
  - split; [assumption|]. split; [|assumption].
    eapply Forall_impl; [|exact Hahead]. simpl. intros; lia.
  - split; [|split].
    + apply Forall_app. split; [assumption|]. repeat constructor. discriminate.
    + apply Forall_app. split.
      * eapply Forall_impl; [|exact Hahead]. simpl. intros; lia.
      * repeat constructor. simpl. lia.
    + rewrite map_app. simpl. apply NoDup_app_remove_l with (l := []).
      simpl. apply Permutation_NoDup with (l := (shopping_items_id_seq db + 1)
                                                 :: map id (shopping_items db)).
      * apply Permutation_cons_append.
      * constructor; [|assumption].
        intros Hin. apply in_map_iff in Hin. destruct Hin as (r & E & Hr).
        rewrite Forall_forall in Hahead. specialize (Hahead r Hr). lia.
  - split; [|split].
    + apply Forall_map. eapply Forall_impl; [|exact Hflags].
      simpl. intros r Hr. destruct (id r =? i); [|assumption].
      unfold updated, update_row, coalesce_null. simpl.
      destruct (supplied (body_purchased body)); [discriminate|assumption].
    + apply Forall_map. eapply Forall_impl; [|exact Hahead].
      simpl. intros r Hr. destruct (id r =? i); assumption.
    + rewrite map_map. erewrite map_ext; [exact Hkey|].
      intros r. destruct (id r =? i); reflexivity.
  - split; [|split].
    + apply Forall_forall. intros r Hr. apply filter_In in Hr.
      rewrite Forall_forall in Hflags. apply Hflags, Hr.
    + apply Forall_forall. intros r Hr. apply filter_In in Hr.
      rewrite Forall_forall in Hahead. apply Hahead, Hr.
    + clear Hflags Hahead. induction (shopping_items db) as [|x l IH]; simpl.
      * constructor.
      * inversion Hkey as [|? ? Hx Hl]; subst.
        destruct (negb (id x =? i)); simpl; [|auto].
        constructor; [|auto].
        intros Hin. apply Hx. apply in_map_iff in Hin.
        destruct Hin as (r & E & Hr). apply filter_In in Hr.
        rewrite <- E. apply in_map, Hr.
Qed.

Lemma reachable_consistent db : reachable db -> consistent db.
Proof.
  induction 1 as [|now req db _ IH].
  - repeat split; constructor.
  - exact (effect_consistent _ _ _ (handle_effect now req db) IH).
Qed.

Lemma count_split db :
  flags_set db ->
  count (fun _ => true) db = count (purchased_is true) db + count (purchased_is false) db.
Proof.
  unfold flags_set, count. induction 1 as [|r rows Hr _ IH]; [reflexivity|].
  cbn [filter].
  assert (Hflag : (purchased_is true r = true /\ purchased_is false r = false)
                  \/ (purchased_is true r = false /\ purchased_is false r = true)).
  { unfold purchased_is. destruct (purchased r) as [[|]|]; auto. }
  destruct Hflag as [[-> ->]|[-> ->]]; cbn [Datatypes.length]; rewrite !Nat2Z.inj_succ; lia.
Qed.

Lemma serve_reachable reqs db : reachable db -> reachable (serve reqs db).
Proof.
  revert db. induction reqs as [|[now req] reqs IH]; simpl; intros db H.
  - exact H.
  - apply IH. apply reachable_step. exact H.
Qed.

(** ** The guard of the create handler *)

Lemma truthy_nonempty nm : nm <> "" -> truthy_string (Val nm) = true.
Proof.
  intros H. simpl. destruct (String.eqb_spec nm ""); [contradiction|reflexivity].
Qed.

Lemma qty_positive f : 1 <= qty f.
Proof.
  destruct f as [| |q]; simpl; try lia.
  destruct (q =? 0); simpl; [lia|].
  destruct (0 <? q) eqn:H; [apply Z.ltb_lt in H|]; lia.
Qed.

Lemma qty_supplied q : 0 < q -> qty (Val q) = q.
Proof.
  intros H. simpl.
  replace (q =? 0) with false by (symmetry; apply Z.eqb_neq; lia).
  replace (0 <? q) with true by (symmetry; apply Z.ltb_lt; lia).
  reflexivity.
Qed.

Lemma qty_default f : (forall q, f = Val q -> q <= 0) -> qty f = 1.
Proof.
  destruct f as [| |q]; simpl; try reflexivity.
  intros H. specialize (H q eq_refl).
  destruct (q =? 0); simpl; [reflexivity|].
  replace (0 <? q) with false by (symmetry; apply Z.ltb_ge; lia).
  reflexivity.
Qed.

(** ** A worked session *)

Example session_table :
  shopping_items (serve session initDB)
  = [mkRow 1 "A" (Some 1) (Some true) (Some 10);
     mkRow 2 "B" (Some 1) (Some false) (Some 11)].
Proof. reflexivity. Qed.

Example session_listing :
  payload (response (handle 30 GetItems (serve session initDB)))
  = JObj [("success", JBool true);
          ("data", JArr [item_json (mkRow 2 "B" (Some 1) (Some false) (Some 11));
                         item_json (mkRow 1 "A" (Some 1) (Some true) (Some 10))])].
Proof. reflexivity. Qed.

Example session_delete_then_get :
  let db := store (handle 40 (DeleteItem 1) (serve session initDB)) in
  response (handle 41 (GetItem 1) db) = not_found
  /\ count (fun _ => true) db = count (fun _ => true) (serve session initDB) - 1.
Proof. split; reflexivity. Qed.

(** ** Quantity on update *)

(** X12: every request but an update keeps all quantities at 1 or more: the
    create handler applies its guard to what it inserts, and the reads and
    the delete write no quantity. *)
Lemma quantities_positive_without_update now req db :
  is_update req = false ->
  quantities_positive db -> quantities_positive (store (handle now req db)).
Proof.
  unfold quantities_positive.
  destruct req as [| |i|body|i body|i|]; intros Hreq Hpos;
    try discriminate.
  - rewrite handle_get_health. exact Hpos.
  - rewrite handle_get_items. exact Hpos.
  - rewrite handle_get_item. exact Hpos.
  - rewrite handle_post_item.
    destruct (truthy_string (body_name body)) eqn:Hnm; [|exact Hpos].
    destruct (body_name body) as [| |nm]; try discriminate. simpl.
    destruct (exec_insert now (PText nm) (PInt (qty (body_quantity body))) db)
      as [[rows|] db'] eqn:Hins; simpl.
    + apply exec_insert_answers in Hins.
      destruct Hins as (nm' & _ & _ & _ & _ & ->).
      apply Forall_app. split; [exact Hpos|].
      repeat constructor. exists (qty (body_quantity body)).
      split; [reflexivity|apply qty_positive].
    + apply exec_insert_keeps_rows in Hins. rewrite Hins. exact Hpos.
  - rewrite handle_delete_item. simpl.
    destruct (in_int4 i); simpl; [|exact Hpos].
    apply Forall_forall. intros r Hr. apply filter_In in Hr.
    rewrite Forall_forall in Hpos. apply Hpos, Hr.
  - rewrite handle_get_stats. exact Hpos.
Qed.

(** C1 (fails on the code): after creating "Milk" and then updating item 1
    with [quantity: 0], the update answers 200 and the stored quantity is 0:
    the update handler binds the supplied quantity as it is, without the
    guard the create handler applies. *)
Theorem update_stores_quantity_zero :
  let db := store (handle 10 (PostItem (mkBody (Val "Milk") Absent Absent)) initDB) in
  let out := handle 20 (PutItem 1 (mkBody Absent (Val 0) Absent)) db in
  reachable (store out)
  /\ status (response out) = 200
  /\ shopping_items (store out) = [mkRow 1 "Milk" (Some 0) (Some false) (Some 10)].
Proof.
  split; [|split; reflexivity].
  apply reachable_step, reachable_step, reachable_init.
Qed.

(** ** SQL text *)

(** C2: whatever the request and the state, the SQL texts a handler submits
    are an initial segment of the fixed list of literals of its route; the
    path parameter and the body members only ever appear among the bound
    values. *)
Theorem sql_text_is_constant now req db :
  exists n,
    map fst (submitted (handle now req db)) = firstn n (route_sql (route req)).
Proof.
  destruct req as [| |i|body|i body|i|].
  - exists 0%nat. rewrite handle_get_health. reflexivity.
  - exists 1%nat. rewrite handle_get_items. reflexivity.
  - exists 1%nat. rewrite handle_get_item. reflexivity.
  - rewrite handle_post_item.
    destruct (truthy_string (body_name body)); [exists 1%nat|exists 0%nat]; reflexivity.
  - exists 1%nat. rewrite handle_put_item. reflexivity.
  - exists 1%nat. rewrite handle_delete_item. simpl.
    destruct (in_int4 i); reflexivity.
  - exists 3%nat. rewrite handle_get_stats. reflexivity.
Qed.

(** ** Create without a name *)

(** C4: a create request whose name is absent, null or the empty string is
    answered 400 with [success: false]; nothing is submitted to the store and
    the state is unchanged. *)
Theorem create_without_name now db body :
  body_name body = Absent \/ body_name body = Null \/ body_name body = Val "" ->
  handle now (PostItem body) db
  = mkOutcome
      (mkResponse 400 (JObj [("success", JBool false);
                             ("error", JStr "Item name is required")]))
      db [].
Proof.
  intros H. rewrite handle_post_item.
  destruct H as [->|[->| ->]]; reflexivity.
Qed.

Lemma create_without_name_witness :
  (body_name (mkBody (Val "") (Val 2) Absent) = Absent
   \/ body_name (mkBody (Val "") (Val 2) Absent) = Null
   \/ body_name (mkBody (Val "") (Val 2) Absent) = Val "")
  /\ handle 10 (PostItem (mkBody (Val "") (Val 2) Absent)) initDB
     = mkOutcome
         (mkResponse 400 (JObj [("success", JBool false);
                                ("error", JStr "Item name is required")]))
         initDB [].
Proof.
  split.
  - right. right. reflexivity.
  - apply (create_without_name 10 initDB (mkBody (Val "") (Val 2) Absent)).
    right. right. reflexivity.
Defined.

(** ** Listing *)

(** C5: in every state the list handler answers 200 with all the rows of the
    table, each once, ordered by [purchased] ascending and then [created_at]
    descending: of two listed rows with known keys, the earlier one is
    unpurchased and the later purchased, or they agree on [purchased] and
    the earlier one is at least as new. *)
Theorem list_sorted now db :
  exists rows,
    handle now GetItems db
    = mkOutcome
        (mkResponse 200 (JObj [("success", JBool true);
                               ("data", JArr (map item_json rows))]))
        db [(SQL_LIST, [])]
    /\ Permutation (shopping_items db) rows
    /\ StronglySorted listed rows
    /\ forall front a mid b back pa pb ta tb,
         rows = front ++ a :: mid ++ b :: back ->
         purchased a = Some pa -> purchased b = Some pb ->
         created_at a = Some ta -> created_at b = Some tb ->
         (pa = false /\ pb = true) \/ (pa = pb /\ tb <= ta).
Proof.
  exists (sort_rows (shopping_items db)).
  split; [apply handle_get_items|].
  split; [apply sort_rows_perm|].
  split; [apply sort_rows_sorted|].
  intros front a mid b back pa pb ta tb E Hpa Hpb Hta Htb.
  apply (listed_known a b pa pb ta tb Hpa Hpb Hta Htb).
  apply (sorted_pair listed front a mid b back).
  rewrite <- E. apply sort_rows_sorted.
Qed.

(** ** Statistics *)

(** C8: in every state reached from the empty table by any requests, the
    stats handler answers 200 with [total], [purchased] and [pending] where
    [total] counts the rows, [purchased] those with [purchased = true],
    [pending] those with [purchased = false], and
    [total = purchased + pending]. *)
Theorem stats_add_up now db :
  reachable db ->
  exists t p q,
    response (handle now GetStats db)
    = mkResponse 200
        (JObj [("success", JBool true);
               ("data", JObj [("total", JNum t); ("purchased", JNum p);
                              ("pending", JNum q)])])
    /\ t = Z.of_nat (List.length (shopping_items db))
    /\ p = Z.of_nat (List.length (filter (fun r => match purchased r with
                                                   | Some true => true
                                                   | _ => false
                                                   end) (shopping_items db)))
    /\ q = Z.of_nat (List.length (filter (fun r => match purchased r with
                                                   | Some false => true
                                                   | _ => false
                                                   end) (shopping_items db)))
    /\ t = p + q.
Proof.
  intros Hreach.
  exists (count (fun _ => true) db), (count (purchased_is true) db),
         (count (purchased_is false) db).
  split; [rewrite handle_get_stats; reflexivity|].
  split; [unfold count; rewrite filter_all; auto|].
  split; [|split].
  - unfold count. erewrite filter_ext; [reflexivity|].
    intros r. unfold purchased_is. destruct (purchased r) as [[|]|]; reflexivity.
  - unfold count. erewrite filter_ext; [reflexivity|].
    intros r. unfold purchased_is. destruct (purchased r) as [[|]|]; reflexivity.
  - apply count_split. apply reachable_consistent. exact Hreach.
Qed.

Lemma stats_add_up_witness :
  let db := serve [(10, PostItem (mkBody (Val "Milk") Absent Absent));
                   (11, PostItem (mkBody (Val "Eggs") (Val 12) Absent));
                   (20, PutItem 1 (mkBody Absent Absent (Val true)))] initDB in
  reachable db
  /\ exists t p q,
       response (handle 30 GetStats db)
       = mkResponse 200
           (JObj [("success", JBool true);
                  ("data", JObj [("total", JNum t); ("purchased", JNum p);
                                 ("pending", JNum q)])])
       /\ t = Z.of_nat (List.length (shopping_items db))
       /\ p = Z.of_nat (List.length (filter (fun r => match purchased r with
                                                      | Some true => true
                                                      | _ => false
                                                      end) (shopping_items db)))
       /\ q = Z.of_nat (List.length (filter (fun r => match purchased r with
                                                      | Some false => true
                                                      | _ => false
                                                      end) (shopping_items db)))
       /\ t = p + q.
Proof.
  intros db.
  assert (H : reachable db) by (apply serve_reachable, reachable_init).
  split; [exact H|].
  exact (stats_add_up 30 db H).
Defined.

(** ** Create *)

(** C3 (as stated, fails): a create request with name "Milk" and quantity
    2147483648, which is present and greater than zero, is answered 500 and
    inserts no row: the value does not fit the [INTEGER] column. *)
Lemma create_quantity_beyond_integer :
  let body := mkBody (Val "Milk") (Val 2147483648) Absent in
  let out := handle 10 (PostItem body) initDB in
  response out
  = mkResponse 500 (JObj [("success", JBool false);
                          ("error", JStr "Error creating item")])
  /\ shopping_items (store out) = []
  /\ ~ exists row, In row (shopping_items (store out))
                   /\ quantity row = Some 2147483648.
Proof.
  split; [reflexivity|]. split; [reflexivity|].
  intros (row & Hin & _). exact Hin.
Qed.

Lemma existsb_id_none rows k :
  existsb (id_is (Some k)) rows = false <-> forall r, In r rows -> id r <> k.
Proof.
  split.
  - intros H r Hr E.
    assert (Hex : existsb (id_is (Some k)) rows = true).
    { apply existsb_exists. exists r. split; [exact Hr|].
      simpl. apply Z.eqb_eq. exact E. }
    rewrite H in Hex. discriminate.
  - intros H. destruct (existsb (id_is (Some k)) rows) eqn:E; [|reflexivity].
    apply existsb_exists in E. destruct E as (r & Hr & Hid).
    simpl in Hid. apply Z.eqb_eq in Hid. exfalso. exact (H r Hr Hid).
Qed.

(** When the store accepts an [INSERT]. *)
Lemma exec_insert_accepted now nm q db :
  (exists rows, fst (exec_insert now (PText nm) (PInt q) db) = Some rows)
  <-> fits_varchar255 nm = true /\ in_int4 q = true
      /\ shopping_items_id_seq db < int4_max
      /\ forall r, In r (shopping_items db) -> id r <> shopping_items_id_seq db + 1.
Proof.
  rewrite <- existsb_id_none.
  unfold exec_insert, rejected, as_varchar255, as_int4, fits_varchar255.
  destruct (varchar255 nm) as [nm'|]; cbn [option_map];
    [|split; [intros (rows & H); discriminate|intros (H & _); discriminate]].
  destruct (in_int4 q);
    [|split; [intros (rows & H); discriminate|intros (_ & H & _); discriminate]].
  destruct (shopping_items_id_seq db + 1 <=? int4_max) eqn:Hseq.
  - apply Z.leb_le in Hseq.
    destruct (existsb (id_is (Some (shopping_items_id_seq db + 1)))
                      (shopping_items db)); cbn [fst].
    + split; [intros (rows & H); discriminate|intros (_ & _ & _ & H); discriminate].
    + split; [intros _; repeat split; lia|intros _; eexists; reflexivity].
  - apply Z.leb_gt in Hseq. cbn [fst].
    split; [intros (rows & H); discriminate|intros (_ & _ & H & _); lia].
Qed.

(** C3 (amended): for every create request with a non-empty name and a
    quantity that is absent, null or an integer, the effective quantity
    passed to the store is the supplied value when it is strictly greater
    than zero, and 1 otherwise (absent, null, zero or negative); the request
    is never answered 400.  Either the store accepts the insert, the answer
    is 201 and carries the new row, appended to the table with that
    quantity; or the store rejects it, the answer is 500 and the table is
    unchanged.  The store accepts exactly when the name fits [VARCHAR(255)],
    the effective quantity is at most 2147483647, the id sequence is not
    exhausted and no stored row already has the next id of the sequence;
    the last condition holds in every state reached from the empty table. *)
Theorem create_effective_quantity now db body nm :
  body_name body = Val nm -> nm <> "" ->
  let out := handle now (PostItem body) db in
  exists q,
    (forall v, body_quantity body = Val v -> 0 < v -> q = v)
    /\ ((forall v, body_quantity body = Val v -> v <= 0) -> q = 1)
    /\ submitted out = [(SQL_INSERT, [PText nm; PInt q])]
    /\ status (response out) <> 400
    /\ ((exists row,
           response out
           = mkResponse 201 (JObj [("success", JBool true); ("data", item_json row)])
           /\ shopping_items (store out) = shopping_items db ++ [row]
           /\ quantity row = Some q)
        \/ (response out = server_error "Error creating item"
            /\ shopping_items (store out) = shopping_items db))
    /\ (status (response out) = 201
        <-> fits_varchar255 nm = true /\ q <= int4_max
            /\ shopping_items_id_seq db < int4_max
            /\ forall r, In r (shopping_items db) ->
                         id r <> shopping_items_id_seq db + 1)
    /\ (reachable db ->
        forall r, In r (shopping_items db) -> id r <> shopping_items_id_seq db + 1).
Proof.
  intros Hname Hnm out. subst out.
  exists (qty (body_quantity body)).
  split; [intros v -> Hv; apply qty_supplied; exact Hv|].
  split; [apply qty_default|].
  rewrite handle_post_item, Hname, (truthy_nonempty nm Hnm). simpl.
  split; [reflexivity|].
  pose proof (exec_insert_accepted now nm (qty (body_quantity body)) db) as Hacc.
  pose proof (qty_positive (body_quantity body)) as Hpos.
  assert (Hrange : in_int4 (qty (body_quantity body)) = true
                   <-> qty (body_quantity body) <= int4_max).
  { unfold in_int4, int4_min. rewrite andb_true_iff, !Z.leb_le. lia. }
  split; [|split; [|split]].
  - destruct (fst (exec_insert now (PText nm) (PInt (qty (body_quantity body))) db));
      discriminate.
  - destruct (exec_insert now (PText nm) (PInt (qty (body_quantity body))) db)
      as [[rows|] db'] eqn:Hins; simpl.
    + apply exec_insert_answers in Hins.
      destruct Hins as (nm' & _ & _ & _ & -> & ->).
      left. exists (new_row now db nm' (qty (body_quantity body))).
      repeat split.
    + apply exec_insert_keeps_rows in Hins. right. split; [reflexivity|exact Hins].
  - rewrite <- Hrange, <- Hacc.
    destruct (fst (exec_insert now (PText nm) (PInt (qty (body_quantity body))) db))
      as [rows|]; simpl.
    + split; [intros _; eexists; reflexivity|reflexivity].
    + split; [discriminate|intros (rows & H); discriminate].
  - intros Hreach r Hr.
    destruct (reachable_consistent db Hreach) as (_ & Hahead & _).
    unfold seq_ahead in Hahead. rewrite Forall_forall in Hahead.
    specialize (Hahead r Hr). lia.
Qed.

Lemma create_effective_quantity_witness :
  let body := mkBody (Val "Eggs") (Val (-3)) Absent in
  let out := handle 10 (PostItem body) initDB in
  (body_name body = Val "Eggs" /\ "Eggs" <> "")
  /\ exists q,
    (forall v, body_quantity body = Val v -> 0 < v -> q = v)
    /\ ((forall v, body_quantity body = Val v -> v <= 0) -> q = 1)
    /\ submitted out = [(SQL_INSERT, [PText "Eggs"; PInt q])]
    /\ status (response out) <> 400
    /\ ((exists row,
           response out
           = mkResponse 201 (JObj [("success", JBool true); ("data", item_json row)])
           /\ shopping_items (store out) = shopping_items initDB ++ [row]
           /\ quantity row = Some q)
        \/ (response out = server_error "Error creating item"
            /\ shopping_items (store out) = shopping_items initDB))
    /\ (status (response out) = 201
        <-> fits_varchar255 "Eggs" = true /\ q <= int4_max
            /\ shopping_items_id_seq initDB < int4_max
            /\ forall r, In r (shopping_items initDB) ->
                         id r <> shopping_items_id_seq initDB + 1)
    /\ (reachable initDB ->
        forall r, In r (shopping_items initDB) ->
                  id r <> shopping_items_id_seq initDB + 1).
Proof.
  intros body out.
  assert (Hnm : "Eggs" <> "") by discriminate.
  split; [split; [reflexivity|exact Hnm]|].
  exact (create_effective_quantity 10 initDB body "Eggs" eq_refl Hnm).
Defined.

(** C10: a create request's [purchased] member is ignored: the outcome of the
    request is the same whatever that member is, the only values bound to
    the insert are the name and the quantity, and a row the request adds has
    [purchased = false]. *)
Theorem create_ignores_purchased now db body flag :
  let out := handle now (PostItem body) db in
  handle now (PostItem (mkBody (body_name body) (body_quantity body) flag)) db = out
  /\ (forall sql values, In (sql, values) (submitted out) ->
      values = [bound PText (body_name body); PInt (qty (body_quantity body))])
  /\ (shopping_items (store out) = shopping_items db
      \/ exists row, shopping_items (store out) = shopping_items db ++ [row]
                     /\ purchased row = Some false).
Proof.
  intros out. subst out. split; [|split].
  - rewrite !handle_post_item. reflexivity.
  - rewrite handle_post_item.
    destruct (truthy_string (body_name body)); simpl; [|contradiction].
    intros sql values [[= _ <-]|[]]. reflexivity.
  - rewrite handle_post_item.
    destruct (truthy_string (body_name body)) eqn:Hnm; simpl; [|left; reflexivity].
    destruct (body_name body) as [| |nm]; try discriminate. simpl.
    destruct (exec_insert now (PText nm) (PInt (qty (body_quantity body))) db)
      as [[rows|] db'] eqn:Hins; simpl.
    + apply exec_insert_answers in Hins.
      destruct Hins as (nm' & _ & _ & _ & _ & ->).
      right. eexists. split; reflexivity.
    + apply exec_insert_keeps_rows in Hins. left. exact Hins.
Qed.

(** ** Unknown ids *)




(** ** Update *)

(** C7 (as stated, fails): item 1 exists, yet the update with
    [quantity: 2147483648] is answered 500 with an error, not with the
    updated record: the value does not fit the [INTEGER] column. *)
Lemma update_quantity_beyond_integer :
  let db := store (handle 10 (PostItem (mkBody (Val "Milk") Absent Absent)) initDB) in
  let out := handle 20 (PutItem 1 (mkBody Absent (Val 2147483648) Absent)) db in
  shopping_items db = [mkRow 1 "Milk" (Some 1) (Some false) (Some 10)]
  /\ response out
     = mkResponse 500 (JObj [("success", JBool false);
                             ("error", JStr "Error updating item")])
  /\ get_member "data" (payload (response out)) = None.
Proof. repeat split. Qed.

(** C7 (amended): for every existing item (ids being a key) and every update
    request, the item's row is replaced in place by a row with the same [id]
    and [created_at] in which each of [name], [quantity], [purchased] that
    is absent from the body keeps its stored value, and no other row
    changes.  Either the store accepts the update, the answer is 200 with
    the full updated row and the members the body supplies are stored; or
    the store rejects it, the answer is 500 and the row is as before.  The
    store accepts whenever the body's values fit their columns and the id is
    within the [INTEGER] range, so always when only [purchased] is sent for
    such an id. *)
Theorem update_coalesces now db i body r :
  NoDup (map id (shopping_items db)) ->
  In r (shopping_items db) -> id r = i ->
  let out := handle now (PutItem i body) db in
  exists r',
    shopping_items (store out)
    = map (fun x => if id x =? i then r' else x) (shopping_items db)
    /\ id r' = id r /\ created_at r' = created_at r
    /\ (body_name body = Absent -> name r' = name r)
    /\ (body_quantity body = Absent -> quantity r' = quantity r)
    /\ (body_purchased body = Absent -> purchased r' = purchased r)
    /\ ((response out
         = mkResponse 200 (JObj [("success", JBool true); ("data", item_json r')])
         /\ (forall nm, body_name body = Val nm -> varchar255 nm = Some (name r'))
         /\ (forall q, body_quantity body = Val q -> quantity r' = Some q)
         /\ (forall b, body_purchased body = Val b -> purchased r' = Some b))
        \/ (response out = server_error "Error updating item" /\ r' = r))
    /\ (values_fit body = true -> in_int4 i = true -> status (response out) = 200)
    /\ (body_name body = Absent -> body_quantity body = Absent ->
        in_int4 i = true -> status (response out) = 200).
Proof.
  intros Hkey Hin Hid out. subst out i.
  assert (Hsame : forall x, In x (shopping_items db) ->
                            (id x =? id r) = true -> x = r).
  { intros x Hx E. apply Z.eqb_eq in E. exact (key_unique _ _ _ Hkey Hin Hx E). }
  rewrite handle_put_item, exec_update_body. simpl.
  destruct (values_fit body && in_int4 (id r)) eqn:Hok; simpl.
  - exists (updated body r).
    rewrite (filter_key _ _ Hkey Hin). simpl.
    split.
    { apply map_ext_in. intros x Hx.
      destruct (id x =? id r) eqn:E; [|reflexivity].
      rewrite (Hsame x Hx E). reflexivity. }
    split; [reflexivity|]. split; [reflexivity|].
    unfold updated, update_row; simpl.
    split; [intros ->; reflexivity|].
    split; [intros ->; reflexivity|].
    split; [intros ->; reflexivity|].
    split; [|split; intros; reflexivity].
    left. split; [reflexivity|].
    apply andb_prop in Hok. destruct Hok as [Hfit _].
    unfold values_fit in Hfit. apply andb_prop in Hfit. destruct Hfit as [Hnm _].
    split; [|split].
    + intros nm E. rewrite E in *. simpl in *. unfold fits_varchar255 in Hnm.
      destruct (varchar255 nm); [reflexivity|discriminate].
    + intros q ->. reflexivity.
    + intros b ->. reflexivity.
  - exists r. split.
    { symmetry. apply map_untouched. intros x Hx.
      destruct (id x =? id r) eqn:E; [|reflexivity].
      symmetry. exact (Hsame x Hx E). }
    split; [reflexivity|]. split; [reflexivity|].
    split; [intros; reflexivity|]. split; [intros; reflexivity|].
    split; [intros; reflexivity|].
    split; [right; split; reflexivity|].
    split.
    + intros Hfit Hi. rewrite Hfit, Hi in Hok. discriminate.
    + intros Hnm Hq Hi. unfold values_fit in Hok. rewrite Hnm, Hq, Hi in Hok.
      discriminate.
Qed.

Lemma update_coalesces_witness :
  let r := mkRow 1 "Milk" (Some 1) (Some false) (Some 10) in
  let db := mkDB [r] 1 in
  let body := mkBody Absent Absent (Val true) in
  let out := handle 20 (PutItem 1 body) db in
  (NoDup (map id (shopping_items db)) /\ In r (shopping_items db) /\ id r = 1)
  /\ exists r',
    shopping_items (store out)
    = map (fun x => if id x =? 1 then r' else x) (shopping_items db)
    /\ id r' = id r /\ created_at r' = created_at r
    /\ (body_name body = Absent -> name r' = name r)
    /\ (body_quantity body = Absent -> quantity r' = quantity r)
    /\ (body_purchased body = Absent -> purchased r' = purchased r)
    /\ ((response out
         = mkResponse 200 (JObj [("success", JBool true); ("data", item_json r')])
         /\ (forall nm, body_name body = Val nm -> varchar255 nm = Some (name r'))
         /\ (forall q, body_quantity body = Val q -> quantity r' = Some q)
         /\ (forall b, body_purchased body = Val b -> purchased r' = Some b))
        \/ (response out = server_error "Error updating item" /\ r' = r))
    /\ (values_fit body = true -> in_int4 1 = true -> status (response out) = 200)
    /\ (body_name body = Absent -> body_quantity body = Absent ->
        in_int4 1 = true -> status (response out) = 200).
Proof.
  intros r db body out.
  assert (Hkey : NoDup (map id (shopping_items db))).
  { simpl. constructor; [intros []|constructor]. }
  assert (Hin : In r (shopping_items db)) by (left; reflexivity).
  split; [split; [exact Hkey|split; [exact Hin|reflexivity]]|].
  exact (update_coalesces 20 db 1 body r Hkey Hin eq_refl).
Defined.

(** ** Envelope *)

(** C9 (as stated, fails): the health check answers 200 with
    [{status, timestamp}]; its document has no [success] flag and none of
    [data], [error], [message]. *)
Lemma health_has_no_envelope :
  let res := response (handle 10 GetHealth initDB) in
  res = mkResponse 200 (JObj [("status", JStr "ok"); ("timestamp", JTime 10)])
  /\ get_member "success" (payload res) = None
  /\ get_member "data" (payload res) = None
  /\ get_member "error" (payload res) = None
  /\ get_member "message" (payload res) = None.
Proof. repeat split. Qed.

(** C9 (amended): every successful response (200 or 201) of every endpoint
    other than the health check, that is of every endpoint under [/api], is
    wrapped in the uniform envelope: the document is [success: true]
    followed by a [data] member for the listing, the lookup, the create, the
    update and the statistics, and by the [message] member for the delete,
    and nothing else.  The health check is outside the envelope. *)
Theorem api_envelope now req db :
  req <> GetHealth ->
  let res := response (handle now req db) in
  status res = 200 \/ status res = 201 ->
  match route req with
  | DeleteRoute =>
      payload res = JObj [("success", JBool true); ("message", JStr "Item deleted")]
  | _ =>
      exists d, payload res = JObj [("success", JBool true); ("data", d)]
  end.
Proof.
  intros Hreq res. subst res.
  destruct req as [| |i|body|i body|i|]; [contradiction| | | | | |]; cbn [route].
  - rewrite handle_get_items. intros _. eexists. reflexivity.
  - rewrite handle_get_item. cbv zeta. cbn [response].
    destruct (in_int4 i); [|intros [H|H]; discriminate].
    destruct (filter _ _); [intros [H|H]; discriminate|].
    intros _. eexists. reflexivity.
  - rewrite handle_post_item.
    destruct (truthy_string (body_name body)) eqn:Hnm;
      [|intros [H|H]; discriminate].
    destruct (body_name body) as [| |nm]; try discriminate.
    cbv zeta. cbn [bound response].
    destruct (exec_insert now (PText nm) (PInt (qty (body_quantity body))) db)
      as [[rows|] db'] eqn:Hins; cbn [fst]; [|intros [H|H]; discriminate].
    apply exec_insert_answers in Hins.
    destruct Hins as (nm' & _ & _ & _ & -> & _).
    intros _. eexists. reflexivity.
  - rewrite handle_put_item. cbv zeta. cbn [response].
    destruct (fst _) as [[|r rows]|]; try (intros [H|H]; discriminate).
    intros _. eexists. reflexivity.
  - rewrite handle_delete_item. cbv zeta.
    destruct (in_int4 i); cbn [response]; [|intros [H|H]; discriminate].
    destruct (filter _ _); [intros [H|H]; discriminate|].
    intros _. reflexivity.
  - rewrite handle_get_stats. intros _. eexists. reflexivity.
Qed.

Lemma api_envelope_witness :
  let db := mkDB [mkRow 1 "Milk" (Some 1) (Some false) (Some 10)] 1 in
  let res := response (handle 20 (DeleteItem 1) db) in
  (DeleteItem 1 <> GetHealth /\ (status res = 200 \/ status res = 201))
  /\ payload res = JObj [("success", JBool true); ("message", JStr "Item deleted")].
Proof.
  intros db res.
  assert (H : DeleteItem 1 <> GetHealth) by discriminate.
  assert (Hok : status res = 200 \/ status res = 201) by (left; reflexivity).
  split; [split; [exact H|exact Hok]|].
  exact (api_envelope 20 (DeleteItem 1) db H Hok).
Defined.

(** * Further properties of the handlers *)

Lemma filter_nil_inv {A : Type} (f : A -> bool) (l : list A) :
  filter f l = [] -> forall x, In x l -> f x = false.
Proof.
  induction l as [|y l IH]; simpl; intros H x Hx; [contradiction|].
  destruct (f y) eqn:Hy; [discriminate|].
  destruct Hx as [<-|Hx]; [exact Hy|exact (IH H x Hx)].
Qed.

Lemma filter_negb_all {A : Type} (f : A -> bool) (l : list A) :
  filter f l = [] -> filter (fun x => negb (f x)) l = l.
Proof.
  intros H. apply filter_all. intros x Hx.
  rewrite (filter_nil_inv f l H x Hx). reflexivity.
Qed.

Lemma map_miss {A : Type} (f : A -> bool) (g : A -> A) (l : list A) :
  filter f l = [] -> map (fun x => if f x then g x else x) l = l.
Proof.
  intros H. apply map_untouched. intros x Hx.
  rewrite (filter_nil_inv f l H x Hx). reflexivity.
Qed.

(** ** Reads and failures *)

(** X1: the health check, the listing, the lookup of one item and the
    statistics never change the store, whatever they answer. *)
Theorem reads_keep_store now req db :
  is_read req = true -> store (handle now req db) = db.
Proof.
  destruct req as [| |i|body|i body|i|]; intros H; try discriminate.
  - rewrite handle_get_health. reflexivity.
  - rewrite handle_get_items. reflexivity.
  - rewrite handle_get_item. reflexivity.
  - rewrite handle_get_stats. reflexivity.
Qed.

Lemma reads_keep_store_witness :
  is_read (GetItem 2147483648) = true
  /\ store (handle 30 (GetItem 2147483648) (serve session initDB))
     = serve session initDB.
Proof.
  split; [reflexivity|].
  apply (reads_keep_store 30 (GetItem 2147483648) (serve session initDB)).
  reflexivity.
Defined.

(** X2: a request that is not answered 200 or 201 leaves every row of the
    table as it was: a rejected create, update or delete (400, 404, 500)
    writes nothing. *)
Theorem failure_keeps_rows now req db :
  status (response (handle now req db)) <> 200 ->
  status (response (handle now req db)) <> 201 ->
  shopping_items (store (handle now req db)) = shopping_items db.
Proof.
  destruct req as [| |i|body|i body|i|].
  - rewrite handle_get_health. reflexivity.
  - rewrite handle_get_items. reflexivity.
  - rewrite handle_get_item. reflexivity.
  - rewrite handle_post_item.
    destruct (truthy_string (body_name body)); [|reflexivity]. simpl.
    destruct (exec_insert now _ _ db) as [[rows|] db'] eqn:Hins; simpl.
    + intros _ H. contradiction H. reflexivity.
    + intros _ _. exact (exec_insert_keeps_rows _ _ _ _ _ Hins).
  - rewrite handle_put_item, exec_update_body.
    destruct (values_fit body && in_int4 i); [|reflexivity].
    destruct (filter (id_is (Some i)) (shopping_items db)) eqn:Hhits.
    + intros _ _. apply (map_miss (id_is (Some i))). exact Hhits.
    + intros H. contradiction H. reflexivity.
  - rewrite handle_delete_item. cbv zeta.
    destruct (in_int4 i); [|reflexivity].
    destruct (filter (id_is (Some i)) (shopping_items db)) eqn:Hhits.
    + intros _ _. apply (filter_negb_all (id_is (Some i))). exact Hhits.
    + intros H. contradiction H. reflexivity.
  - rewrite handle_get_stats. reflexivity.
Qed.

Lemma failure_keeps_rows_witness :
  let req := PutItem 1 (mkBody (Val "Bread") (Val 2147483648) Absent) in
  (status (response (handle 30 req (serve session initDB))) <> 200
   /\ status (response (handle 30 req (serve session initDB))) <> 201)
  /\ shopping_items (store (handle 30 req (serve session initDB)))
     = shopping_items (serve session initDB).
Proof.
  intros req.
  assert (H200 : status (response (handle 30 req (serve session initDB))) <> 200)
    by discriminate.
  assert (H201 : status (response (handle 30 req (serve session initDB))) <> 201)
    by discriminate.
  split; [split; assumption|].
  exact (failure_keeps_rows 30 req (serve session initDB) H200 H201).
Defined.

(** ** Looking up and deleting *)

(** X3: with [id] a key, fetching the id of a stored item (within the
    [INTEGER] range) answers 200 with exactly that item and one [SELECT]. *)
Theorem get_existing_item now db r :
  NoDup (map id (shopping_items db)) -> In r (shopping_items db) ->
  in_int4 (id r) = true ->
  handle now (GetItem (id r)) db
  = mkOutcome
      (mkResponse 200 (JObj [("success", JBool true); ("data", item_json r)]))
      db [(SQL_GET, [PInt (id r)])].
Proof.
  intros Hkey Hin Hid. rewrite handle_get_item. cbv zeta.
  rewrite Hid, (filter_key _ _ Hkey Hin). reflexivity.
Qed.

Lemma get_existing_item_witness :
  let r := mkRow 2 "B" (Some 1) (Some false) (Some 11) in
  let db := serve session initDB in
  (NoDup (map id (shopping_items db)) /\ In r (shopping_items db)
   /\ in_int4 (id r) = true)
  /\ handle 30 (GetItem (id r)) db
     = mkOutcome
         (mkResponse 200 (JObj [("success", JBool true); ("data", item_json r)]))
         db [(SQL_GET, [PInt (id r)])].
Proof.
  intros r db.
  assert (Hkey : NoDup (map id (shopping_items db))).
  { apply reachable_consistent, serve_reachable, reachable_init. }
  assert (Hin : In r (shopping_items db)) by (right; left; reflexivity).
  split; [split; [exact Hkey|split; [exact Hin|reflexivity]]|].
  exact (get_existing_item 30 db r Hkey Hin eq_refl).
Defined.

(** X4: for an id within the [INTEGER] range, GET and DELETE answer 404
    exactly when no stored item has that id. *)
Theorem not_found_iff_missing now db i :
  in_int4 i = true ->
  (status (response (handle now (GetItem i) db)) = 404
   <-> forall r, In r (shopping_items db) -> id r <> i)
  /\ (status (response (handle now (DeleteItem i) db)) = 404
      <-> forall r, In r (shopping_items db) -> id r <> i).
Proof.
  intros Hi.
  assert (Hhits : forall hits : list Row,
             hits = filter (id_is (Some i)) (shopping_items db) ->
             hits = [] <-> forall r, In r (shopping_items db) -> id r <> i).
  { intros hits ->. split.
    - intros H r Hr E. pose proof (filter_nil_inv _ _ H r Hr) as Hf.
      simpl in Hf. apply Z.eqb_neq in Hf. contradiction.
    - intros H. apply filter_none. apply id_is_miss. exact H. }
  specialize (Hhits _ eq_refl).
  rewrite handle_get_item, handle_delete_item. cbv zeta. rewrite Hi.
  destruct (filter (id_is (Some i)) (shopping_items db)) as [|r hits].
  - split; (split; [intros _; apply Hhits; reflexivity|reflexivity]).
  - split; (split; [discriminate|]); intros H; apply Hhits in H; discriminate.
Qed.

Lemma not_found_iff_missing_witness :
  in_int4 7 = true
  /\ (status (response (handle 30 (GetItem 7) (serve session initDB))) = 404
      <-> forall r, In r (shopping_items (serve session initDB)) -> id r <> 7)
  /\ (status (response (handle 30 (DeleteItem 7) (serve session initDB))) = 404
      <-> forall r, In r (shopping_items (serve session initDB)) -> id r <> 7).
Proof.
  split; [reflexivity|].
  exact (not_found_iff_missing 30 (serve session initDB) 7 eq_refl).
Defined.

(** X5: with [id] a key, deleting a stored item (id within the [INTEGER]
    range) answers 200 with the message "Item deleted", removes that row and
    no other, keeps the order of the remaining rows and the sequence, and
    lowers the total count by exactly one. *)
Theorem delete_existing_item now db r :
  NoDup (map id (shopping_items db)) -> In r (shopping_items db) ->
  in_int4 (id r) = true ->
  let out := handle now (DeleteItem (id r)) db in
  response out
  = mkResponse 200 (JObj [("success", JBool true); ("message", JStr "Item deleted")])
  /\ (forall x, In x (shopping_items (store out))
                <-> In x (shopping_items db) /\ x <> r)
  /\ (exists before after,
        shopping_items db = before ++ r :: after
        /\ shopping_items (store out) = before ++ after)
  /\ shopping_items_id_seq (store out) = shopping_items_id_seq db
  /\ count (fun _ => true) (store out) = count (fun _ => true) db - 1.
Proof.
  intros Hkey Hin Hid out. subst out.
  rewrite handle_delete_item. cbv zeta.
  rewrite Hid, (filter_key _ _ Hkey Hin). cbn [response store shopping_items
    shopping_items_id_seq].
  assert (Hsplit : exists before after,
             shopping_items db = before ++ r :: after
             /\ filter (fun x => negb (id_is (Some (id r)) x)) (shopping_items db)
                = before ++ after).
  { destruct (in_split _ _ Hin) as (before & after & E).
    exists before, after. split; [exact E|].
    rewrite E in Hkey |- *. rewrite filter_app. cbn [filter id_is].
    rewrite Z.eqb_refl. cbn [negb].
    rewrite map_app in Hkey. cbn [map] in Hkey.
    apply NoDup_remove_2 in Hkey.
    rewrite !filter_all; [reflexivity| |].
    - intros x Hx. simpl. apply negb_true_iff, Z.eqb_neq. intros E'.
      apply Hkey, in_or_app. right. rewrite <- E'. apply in_map, Hx.
    - intros x Hx. simpl. apply negb_true_iff, Z.eqb_neq. intros E'.
      apply Hkey, in_or_app. left. rewrite <- E'. apply in_map, Hx. }
  split; [reflexivity|]. split; [|split; [exact Hsplit|split; [reflexivity|]]].
  - intros x. rewrite filter_In. split.
    + intros [Hx Hne]. split; [exact Hx|]. intros ->.
      simpl in Hne. rewrite Z.eqb_refl in Hne. discriminate.
    + intros [Hx Hne]. split; [exact Hx|].
      simpl. apply negb_true_iff, Z.eqb_neq. intros E. apply Hne.
      exact (key_unique _ _ _ Hkey Hin Hx E).
  - destruct Hsplit as (before & after & E & E').
    unfold count. cbn [shopping_items].
    rewrite !(filter_all (fun _ : Row => true)) by reflexivity.
    rewrite E', E, !length_app. cbn [Datatypes.length]. lia.
Qed.

Lemma delete_existing_item_witness :
  let r := mkRow 1 "A" (Some 1) (Some true) (Some 10) in
  let db := serve session initDB in
  let out := handle 40 (DeleteItem (id r)) db in
  (NoDup (map id (shopping_items db)) /\ In r (shopping_items db)
   /\ in_int4 (id r) = true)
  /\ response out
     = mkResponse 200 (JObj [("success", JBool true); ("message", JStr "Item deleted")])
  /\ (forall x, In x (shopping_items (store out))
                <-> In x (shopping_items db) /\ x <> r)
  /\ (exists before after,
        shopping_items db = before ++ r :: after
        /\ shopping_items (store out) = before ++ after)
  /\ shopping_items_id_seq (store out) = shopping_items_id_seq db
  /\ count (fun _ => true) (store out) = count (fun _ => true) db - 1.
Proof.
  intros r db out.
  assert (Hkey : NoDup (map id (shopping_items db))).
  { apply reachable_consistent, serve_reachable, reachable_init. }
  assert (Hin : In r (shopping_items db)) by (left; reflexivity).
  split; [split; [exact Hkey|split; [exact Hin|reflexivity]]|].
  exact (delete_existing_item 40 db r Hkey Hin eq_refl).
Defined.

(** X6: after a delete of an id within the [INTEGER] range, whatever it
    answered, that id is gone: fetching it and deleting it again both answer
    404, and the second delete changes nothing. *)
Theorem delete_then_missing now now' db i :
  in_int4 i = true ->
  let db' := store (handle now (DeleteItem i) db) in
  response (handle now' (GetItem i) db') = not_found
  /\ response (handle now' (DeleteItem i) db') = not_found
  /\ store (handle now' (DeleteItem i) db') = db'.
Proof.
  intros Hi db'. subst db'.
  rewrite (handle_delete_item now). cbv zeta. rewrite Hi.
  cbn [store].
  set (rest := filter (fun r => negb (id_is (Some i) r)) (shopping_items db)).
  assert (Hgone : filter (id_is (Some i)) rest = []).
  { apply filter_none. intros x Hx. apply filter_In in Hx.
    apply negb_true_iff, Hx. }
  rewrite handle_get_item, handle_delete_item. cbv zeta.
  cbn [shopping_items shopping_items_id_seq]. rewrite Hi, Hgone.
  split; [reflexivity|]. split; [reflexivity|].
  cbn [store]. f_equal. apply filter_negb_all. exact Hgone.
Qed.

Lemma delete_then_missing_witness :
  in_int4 1 = true
  /\ (let db' := store (handle 40 (DeleteItem 1) (serve session initDB)) in
      response (handle 41 (GetItem 1) db') = not_found
      /\ response (handle 41 (DeleteItem 1) db') = not_found
      /\ store (handle 41 (DeleteItem 1) db') = db').
Proof.
  split; [reflexivity|].
  exact (delete_then_missing 40 41 (serve session initDB) 1 eq_refl).
Defined.

(** ** Creating *)

Lemma in_int4_iff n : in_int4 n = true <-> int4_min <= n <= int4_max.
Proof.
  unfold in_int4. rewrite andb_true_iff, !Z.leb_le. reflexivity.
Qed.

Lemma created_row now nm q db :
  status (response (handle now (PostItem (mkBody (Val nm) q Absent)) db)) = 201 ->
  exists nm',
    varchar255 nm = Some nm'
    /\ handle now (PostItem (mkBody (Val nm) q Absent)) db
       = mkOutcome
           (mkResponse 201 (JObj [("success", JBool true);
                                  ("data", item_json (new_row now db nm' (qty q)))]))
           (mkDB (shopping_items db ++ [new_row now db nm' (qty q)])
                 (shopping_items_id_seq db + 1))
           [(SQL_INSERT, [PText nm; PInt (qty q)])]
    /\ shopping_items_id_seq db + 1 <= int4_max.
Proof.
  rewrite handle_post_item. cbn [body_name body_quantity].
  destruct (truthy_string (Val nm)); [|discriminate]. cbv zeta. cbn [bound].
  destruct (exec_insert now (PText nm) (PInt (qty q)) db) as [[rows|] db'] eqn:Hins;
    [|discriminate].
  intros _. apply exec_insert_answers in Hins.
  destruct Hins as (nm' & Hnm & _ & Hseq & -> & ->).
  exists nm'. repeat split; assumption.
Qed.

(** X7: create then fetch.  When a create is answered 201 in a state whose
    sequence is ahead of every stored id, the new item has the next id of
    the sequence, [purchased = false] and the request's instant as
    [created_at], and fetching that id afterwards answers 200 with the very
    document the create returned. *)
Theorem create_then_get now now' db body :
  seq_ahead db -> 0 <= shopping_items_id_seq db ->
  let out := handle now (PostItem body) db in
  status (response out) = 201 ->
  exists row,
    shopping_items (store out) = shopping_items db ++ [row]
    /\ id row = shopping_items_id_seq db + 1
    /\ purchased row = Some false
    /\ created_at row = Some now
    /\ payload (response out)
       = JObj [("success", JBool true); ("data", item_json row)]
    /\ response (handle now' (GetItem (id row)) (store out))
       = mkResponse 200 (payload (response out)).
Proof.
  intros Hahead Hseq out H201. subst out.
  assert (Hname : exists nm, body_name body = Val nm).
  { rewrite handle_post_item in H201.
    destruct (body_name body) as [| |nm]; try discriminate. eauto. }
  destruct Hname as (nm & Hname).
  assert (Hsame : handle now (PostItem body) db
                  = handle now (PostItem (mkBody (Val nm) (body_quantity body) Absent)) db).
  { rewrite !handle_post_item. cbn [body_name body_quantity]. rewrite Hname.
    reflexivity. }
  rewrite Hsame in *.
  destruct (created_row _ _ _ _ H201) as (nm' & _ & -> & Hmax).
  exists (new_row now db nm' (qty (body_quantity body))).
  cbn [store response payload shopping_items].
  repeat (split; [reflexivity|]).
  rewrite handle_get_item. cbv zeta. cbn [response shopping_items new_row id].
  replace (in_int4 (shopping_items_id_seq db + 1)) with true
    by (symmetry; apply in_int4_iff; unfold int4_min; lia).
  rewrite filter_app, filter_none.
  - cbn [filter id_is id app]. rewrite Z.eqb_refl. reflexivity.
  - apply id_is_miss. intros r Hr. unfold seq_ahead in Hahead.
    rewrite Forall_forall in Hahead. specialize (Hahead r Hr). lia.
Qed.

Lemma create_then_get_witness :
  let db := serve session initDB in
  let body := mkBody (Val "Bread") (Val 2) Absent in
  let out := handle 30 (PostItem body) db in
  (seq_ahead db /\ 0 <= shopping_items_id_seq db /\ status (response out) = 201)
  /\ exists row,
    shopping_items (store out) = shopping_items db ++ [row]
    /\ id row = shopping_items_id_seq db + 1
    /\ purchased row = Some false
    /\ created_at row = Some 30
    /\ payload (response out)
       = JObj [("success", JBool true); ("data", item_json row)]
    /\ response (handle 31 (GetItem (id row)) (store out))
       = mkResponse 200 (payload (response out)).
Proof.
  intros db body out.
  assert (Hahead : seq_ahead db).
  { apply reachable_consistent, serve_reachable, reachable_init. }
  assert (Hseq : 0 <= shopping_items_id_seq db) by (vm_compute; discriminate).
  assert (H201 : status (response out) = 201) by reflexivity.
  split; [split; [exact Hahead|split; [exact Hseq|exact H201]]|].
  exact (create_then_get 30 31 db body Hahead Hseq H201).
Defined.

(** X8: a successful create raises the total and the pending count by one
    and leaves the purchased count as it was. *)
Theorem create_counts now db body :
  let out := handle now (PostItem body) db in
  status (response out) = 201 ->
  count (fun _ => true) (store out) = count (fun _ => true) db + 1
  /\ count (purchased_is false) (store out) = count (purchased_is false) db + 1
  /\ count (purchased_is true) (store out) = count (purchased_is true) db.
Proof.
  intros out H201. subst out.
  assert (Hname : exists nm, body_name body = Val nm).
  { rewrite handle_post_item in H201.
    destruct (body_name body) as [| |nm]; try discriminate. eauto. }
  destruct Hname as (nm & Hname).
  assert (Hsame : handle now (PostItem body) db
                  = handle now (PostItem (mkBody (Val nm) (body_quantity body) Absent)) db).
  { rewrite !handle_post_item. cbn [body_name body_quantity]. rewrite Hname.
    reflexivity. }
  rewrite Hsame in *.
  destruct (created_row _ _ _ _ H201) as (nm' & _ & -> & _).
  unfold count. cbn [store shopping_items].
  rewrite !filter_app, !length_app. cbn. lia.
Qed.

Lemma create_counts_witness :
  let db := serve session initDB in
  let out := handle 30 (PostItem (mkBody (Val "Bread") (Val 2) (Val true))) db in
  status (response out) = 201
  /\ count (fun _ => true) (store out) = count (fun _ => true) db + 1
  /\ count (purchased_is false) (store out) = count (purchased_is false) db + 1
  /\ count (purchased_is true) (store out) = count (purchased_is true) db.
Proof.
  intros db out.
  assert (H201 : status (response out) = 201) by reflexivity.
  split; [exact H201|].
  exact (create_counts 30 db (mkBody (Val "Bread") (Val 2) (Val true)) H201).
Defined.

(** X9: a [null] member of a body counts as an absent one: a create or an
    update has the same outcome (response, state and submitted statements)
    when the [null] members of its body are left out. *)
Theorem null_is_absent now db i body :
  handle now (PostItem body) db = handle now (PostItem (without_nulls body)) db
  /\ handle now (PutItem i body) db = handle now (PutItem i (without_nulls body)) db.
Proof.
  destruct body as [[| |nm] [| |q] [| |b]]; split; reflexivity.
Qed.

(** ** Updating *)

Lemma updated_twice body r : updated body (updated body r) = updated body r.
Proof.
  unfold updated, update_row, coalesce, coalesce_null. simpl.
  destruct (stored_name (body_name body)), (supplied (body_quantity body)),
           (supplied (body_purchased body)); reflexivity.
Qed.

Lemma updated_id body r : id (updated body r) = id r.
Proof. reflexivity. Qed.

Lemma filter_map_same {A : Type} (f : A -> bool) (g : A -> A) (l : list A) :
  (forall x, f (g x) = f x) -> filter f (map g l) = map g (filter f l).
Proof.
  intros H. induction l as [|x l IH]; simpl; [reflexivity|].
  rewrite H. destruct (f x); simpl; rewrite IH; reflexivity.
Qed.

(** X10: an update is idempotent: sending the same update again gives the
    same response and leaves the state as the first one left it. *)
Theorem update_idempotent now now' db i body :
  let once := handle now (PutItem i body) db in
  let twice := handle now' (PutItem i body) (store once) in
  response twice = response once /\ store twice = store once.
Proof.
  intros once twice. subst once twice.
  rewrite !handle_put_item, !exec_update_body.
  destruct (values_fit body && in_int4 i) eqn:Hok; cbn [fst snd store].
  - cbn [fst snd response store shopping_items shopping_items_id_seq].
    set (hit := fun r => if id_is (Some i) r then updated body r else r).
    assert (Hid : forall x, id_is (Some i) (hit x) = id_is (Some i) x).
    { intros x. unfold hit. destruct (id_is (Some i) x) eqn:E; [|exact E].
      simpl in *. exact E. }
    assert (Hhits : filter (id_is (Some i)) (map hit (shopping_items db))
                    = map (updated body) (filter (id_is (Some i)) (shopping_items db))).
    { rewrite (filter_map_same _ _ _ Hid).
      apply map_ext_in. intros x Hx. apply filter_In in Hx.
      unfold hit. destruct Hx as [_ ->]. reflexivity. }
    rewrite Hhits. split.
    + rewrite (map_map (updated body) (updated body)).
      erewrite (map_ext (fun x => updated body (updated body x)));
        [reflexivity|]. intros x. apply updated_twice.
    + f_equal. rewrite map_map. apply map_ext. intros x. unfold hit.
      destruct (id_is (Some i) x) eqn:E.
      * change (id_is (Some i) (updated body x)) with (id_is (Some i) x).
        rewrite E. apply updated_twice.
      * rewrite E. reflexivity.
  - split; reflexivity.
Qed.

(** X11: the update handler does not validate the name: with [id] a key, an
    update that sends the empty string as [name] for a stored item (id within
    the [INTEGER] range) is answered 200 and stores the empty name, while a
    create with that name is answered 400. *)
Theorem update_stores_empty_name now db r :
  NoDup (map id (shopping_items db)) -> In r (shopping_items db) ->
  in_int4 (id r) = true ->
  let body := mkBody (Val "") Absent Absent in
  let renamed := mkRow (id r) "" (quantity r) (purchased r) (created_at r) in
  response (handle now (PutItem (id r) body) db)
  = mkResponse 200 (JObj [("success", JBool true); ("data", item_json renamed)])
  /\ In renamed (shopping_items (store (handle now (PutItem (id r) body) db)))
  /\ status (response (handle now (PostItem body) db)) = 400.
Proof.
  intros Hkey Hin Hid body renamed. subst body renamed.
  rewrite handle_put_item, exec_update_body, handle_post_item.
  replace (values_fit (mkBody (Val "") Absent Absent)) with true by reflexivity.
  rewrite Hid. cbn [andb fst snd response store shopping_items].
  rewrite (filter_key _ _ Hkey Hin).
  split; [reflexivity|]. split; [|reflexivity].
  apply in_map_iff. exists r. split; [|exact Hin].
  simpl. rewrite Z.eqb_refl. reflexivity.
Qed.

Lemma update_stores_empty_name_witness :
  let r := mkRow 2 "B" (Some 1) (Some false) (Some 11) in
  let db := serve session initDB in
  let body := mkBody (Val "") Absent Absent in
  let renamed := mkRow (id r) "" (quantity r) (purchased r) (created_at r) in
  (NoDup (map id (shopping_items db)) /\ In r (shopping_items db)
   /\ in_int4 (id r) = true)
  /\ response (handle 30 (PutItem (id r) body) db)
     = mkResponse 200 (JObj [("success", JBool true); ("data", item_json renamed)])
  /\ In renamed (shopping_items (store (handle 30 (PutItem (id r) body) db)))
  /\ status (response (handle 30 (PostItem body) db)) = 400.
Proof.
  intros r db body renamed.
  assert (Hkey : NoDup (map id (shopping_items db))).
  { apply reachable_consistent, serve_reachable, reachable_init. }
  assert (Hin : In r (shopping_items db)) by (right; left; reflexivity).
  split; [split; [exact Hkey|split; [exact Hin|reflexivity]]|].
  exact (update_stores_empty_name 30 db r Hkey Hin eq_refl).
Defined.

(** ** Quantities without updates *)

(** The lemma [quantities_positive_without_update] applied to a create that
    sends a negative quantity. *)
Lemma quantities_positive_without_update_witness :
  let req := PostItem (mkBody (Val "Bread") (Val (-5)) Absent) in
  (is_update req = false /\ quantities_positive (serve session initDB))
  /\ quantities_positive (store (handle 30 req (serve session initDB))).
Proof.
  intros req.
  assert (Hpos : quantities_positive (serve session initDB)).
  { repeat constructor; eexists; (split; [reflexivity|]); discriminate. }
  split; [split; [reflexivity|exact Hpos]|].
  exact (quantities_positive_without_update 30 req (serve session initDB)
           eq_refl Hpos).
Defined.

(** ** Listing and statistics together *)


(** ** What every reachable state satisfies *)

Lemma chars_length s : List.length (chars s) = String.length s.
Proof. induction s as [|c s IH]; simpl; [reflexivity|]. rewrite IH. reflexivity. Qed.

Lemma chars_text cs : chars (text cs) = cs.
Proof. induction cs as [|c cs IH]; simpl; [reflexivity|]. rewrite IH. reflexivity. Qed.

Lemma existsb_firstn {A : Type} (f : A -> bool) n (l : list A) :
  existsb f l = false -> existsb f (firstn n l) = false.
Proof.
  revert l. induction n as [|n IH]; intros [|x l]; simpl; try reflexivity.
  intros H. apply orb_false_elim in H. destruct H as [-> H]. simpl. auto.
Qed.

Lemma varchar255_fits s s' :
  varchar255 s = Some s' ->
  (String.length s' <= 255)%nat /\ existsb is_nul (chars s') = false.
Proof.
  unfold varchar255.
  destruct (existsb is_nul (chars s)) eqn:Hnul; [discriminate|].
  destruct (Z.of_nat (List.length (chars s)) <=? 255) eqn:Hlen.
  - intros [= <-]. apply Z.leb_le in Hlen. rewrite chars_length in Hlen.
    split; [lia|exact Hnul].
  - remember 255%nat as n eqn:Hn.
    destruct (forallb is_space (skipn n (chars s))); [|discriminate].
    intros E. assert (E' : s' = text (firstn n (chars s))) by congruence.
    rewrite E', <- chars_length, chars_text. split.
    + apply firstn_le_length.
    + apply existsb_firstn. exact Hnul.
Qed.

Lemma row_ok_later seq seq' r : seq <= seq' -> row_ok seq r -> row_ok seq' r.
Proof.
  unfold row_ok. intros Hle (Hid & H). split; [lia|exact H].
Qed.

Lemma schema_ok_step now req db :
  schema_ok db -> schema_ok (store (handle now req db)).
Proof.
  intros [Hseq Hrows].
  destruct req as [| |i|body|i body|i|].
  - rewrite handle_get_health. split; assumption.
  - rewrite handle_get_items. split; assumption.
  - rewrite handle_get_item. split; assumption.
  - rewrite handle_post_item.
    destruct (truthy_string (body_name body)) eqn:Hnm; [|split; assumption].
    destruct (body_name body) as [| |nm]; try discriminate. cbv zeta. cbn [bound store].
    destruct (exec_insert now (PText nm) (PInt (qty (body_quantity body))) db)
      as [[rows|] db'] eqn:Hins; cbn [snd].
    + apply exec_insert_answers in Hins.
      destruct Hins as (nm' & Hvc & Hq & Hmax & _ & ->).
      split; cbn [shopping_items shopping_items_id_seq]; [lia|].
      apply Forall_app. split.
      * eapply Forall_impl; [|exact Hrows]. intros r. apply row_ok_later. lia.
      * constructor; [|constructor].
        destruct (varchar255_fits _ _ Hvc) as [Hlen Hnul].
        unfold row_ok, new_row. cbn [id name quantity purchased created_at].
        split; [lia|]. split; [exact Hlen|]. split; [exact Hnul|].
        split; [|eauto].
        exists (qty (body_quantity body)). split; [reflexivity|].
        apply in_int4_iff. exact Hq.
    + apply exec_insert_rejects in Hins. destruct Hins as [->|[Hmax ->]].
      * split; assumption.
      * split; cbn [shopping_items shopping_items_id_seq]; [lia|].
        eapply Forall_impl; [|exact Hrows]. intros r. apply row_ok_later. lia.
  - rewrite handle_put_item, exec_update_body. cbv zeta.
    destruct (values_fit body && in_int4 i) eqn:Hok; cbn [snd store];
      [|split; assumption].
    apply andb_prop in Hok. destruct Hok as [Hfit _].
    unfold values_fit in Hfit. apply andb_prop in Hfit. destruct Hfit as [Hnm Hq].
    split; cbn [shopping_items shopping_items_id_seq]; [assumption|].
    apply Forall_map. eapply Forall_impl; [|exact Hrows].
    intros r Hr. cbv beta.
    destruct (id_is (Some i) r); [|exact Hr].
    destruct Hr as (Hid & Hlen & Hnul & Hqty & Hflag & Htime).
    unfold row_ok, updated, update_row.
    cbn [id name quantity purchased created_at].
    split; [exact Hid|].
    assert (Hname : (String.length (coalesce (stored_name (body_name body)) (name r))
                     <= 255)%nat
                    /\ existsb is_nul
                         (chars (coalesce (stored_name (body_name body)) (name r)))
                       = false).
    { destruct (body_name body) as [| |nm]; cbn [stored_name coalesce]; auto.
      destruct (varchar255 nm) as [nm'|] eqn:Hvc; cbn [coalesce]; auto.
      exact (varchar255_fits _ _ Hvc). }
    destruct Hname as [Hlen' Hnul'].
    split; [exact Hlen'|]. split; [exact Hnul'|].
    split; [|split; [|exact Htime]].
    + destruct (body_quantity body) as [| |q]; cbn [supplied coalesce_null]; auto.
      exists q. split; [reflexivity|]. apply in_int4_iff. exact Hq.
    + destruct (body_purchased body) as [| |b]; cbn [supplied coalesce_null]; eauto.
  - rewrite handle_delete_item. cbv zeta.
    destruct (in_int4 i); cbn [store]; [|split; assumption].
    split; cbn [shopping_items shopping_items_id_seq]; [assumption|].
    apply Forall_forall. intros r Hr. apply filter_In in Hr.
    rewrite Forall_forall in Hrows. apply Hrows, Hr.
  - rewrite handle_get_stats. split; assumption.
Qed.

(** X15: every state reached from the empty table satisfies the column
    types: ids are between 1 and the sequence value, which stays within the
    [INTEGER] range; names have at most 255 characters and no NUL; no
    quantity, flag or creation time is NULL and quantities are within the
    [INTEGER] range. *)
Theorem reachable_schema_ok db : reachable db -> schema_ok db.
Proof.
  induction 1 as [|now req db _ IH].
  - split; [unfold int4_max; simpl; lia|constructor].
  - apply schema_ok_step. exact IH.
Qed.

Lemma reachable_schema_ok_witness :
  reachable (serve session initDB) /\ schema_ok (serve session initDB).
Proof.
  assert (H : reachable (serve session initDB))
    by (apply serve_reachable, reachable_init).
  split; [exact H|exact (reachable_schema_ok (serve session initDB) H)].
Defined.

(** X16: in every state reached from the empty table the id is a key: two
    stored rows with the same id are the same row, and no id exceeds the
    sequence value. *)
Theorem reachable_id_is_key db :
  reachable db ->
  (forall r1 r2, In r1 (shopping_items db) -> In r2 (shopping_items db) ->
                 id r1 = id r2 -> r1 = r2)
  /\ NoDup (map id (shopping_items db))
  /\ forall r, In r (shopping_items db) -> id r <= shopping_items_id_seq db.
Proof.
  intros H. destruct (reachable_consistent db H) as (_ & Hahead & Hkey).
  split; [|split; [exact Hkey|]].
  - intros r1 r2 H1 H2 E. exact (key_unique _ _ _ Hkey H2 H1 E).
  - unfold seq_ahead in Hahead. rewrite Forall_forall in Hahead. exact Hahead.
Qed.

Lemma reachable_id_is_key_witness :
  reachable (serve session initDB)
  /\ (forall r1 r2, In r1 (shopping_items (serve session initDB)) ->
                    In r2 (shopping_items (serve session initDB)) ->
                    id r1 = id r2 -> r1 = r2)
  /\ NoDup (map id (shopping_items (serve session initDB)))
  /\ forall r, In r (shopping_items (serve session initDB)) ->
               id r <= shopping_items_id_seq (serve session initDB).
Proof.
  assert (H : reachable (serve session initDB))
    by (apply serve_reachable, reachable_init).
  split; [exact H|exact (reachable_id_is_key (serve session initDB) H)].
Defined.

(** ** Ids and creation times over time *)

Lemma effect_rows now db db' :
  effect now db db' ->
  shopping_items_id_seq db <= shopping_items_id_seq db'
  /\ forall r', In r' (shopping_items db') ->
       (exists r, In r (shopping_items db)
                  /\ id r = id r' /\ created_at r = created_at r')
       \/ (id r' = shopping_items_id_seq db + 1
           /\ created_at r' = Some now /\ purchased r' = Some false).
Proof.
  intros [|Hseq|nm q Hseq|i body|i]; cbn [shopping_items shopping_items_id_seq];
    (split; [lia|]); intros r' Hr'.
  - left. eauto.
  - left. eauto.
  - apply in_app_or in Hr'. destruct Hr' as [Hr'|[<-|[]]].
    + left. eauto.
    + right. repeat split.
  - apply in_map_iff in Hr'. destruct Hr' as (r & <- & Hr). left. exists r.
    split; [exact Hr|]. destruct (id_is (Some i) r); split; reflexivity.
  - apply filter_In in Hr'. left. exists r'. tauto.
Qed.

(** X17: no request changes the id or the creation time of a stored row and
    the sequence never goes back: after any request, each row of the table
    has the id and [created_at] of a row that was there before, or it is the
    row just inserted, with the next id of the sequence, the request's
    instant as [created_at] and [purchased = false]. *)
Theorem rows_keep_id_and_created_at now req db :
  let db' := store (handle now req db) in
  shopping_items_id_seq db <= shopping_items_id_seq db'
  /\ forall r', In r' (shopping_items db') ->
       (exists r, In r (shopping_items db)
                  /\ id r = id r' /\ created_at r = created_at r')
       \/ (id r' = shopping_items_id_seq db + 1
           /\ created_at r' = Some now /\ purchased r' = Some false).
Proof.
  intros db'. subst db'. apply effect_rows, handle_effect.
Qed.

(** X18: ids are never reused.  Over any session, a row of the final table
    whose id is at most the sequence value at the start has its id and
    [created_at] from a row that was in the table at the start: an id that
    was handed out and deleted never comes back, and every item created
    during the session gets an id beyond the starting sequence value. *)
Theorem ids_never_reused reqs db :
  shopping_items_id_seq db <= shopping_items_id_seq (serve reqs db)
  /\ forall r', In r' (shopping_items (serve reqs db)) ->
       id r' <= shopping_items_id_seq db ->
       exists r, In r (shopping_items db)
                 /\ id r = id r' /\ created_at r = created_at r'.
Proof.
  revert db. induction reqs as [|[now req] reqs IH]; intros db; cbn [serve].
  - split; [lia|]. intros r' Hr' _. eauto.
  - destruct (IH (store (handle now req db))) as [Hseq Hrows].
    destruct (effect_rows _ _ _ (handle_effect now req db)) as [Hseq1 Hrows1].
    split; [lia|]. intros r' Hr' Hid.
    destruct (Hrows r' Hr') as (r1 & Hr1 & Eid & Etime); [lia|].
    destruct (Hrows1 r1 Hr1) as [(r & Hr & Eid' & Etime')|(Hnew & _)].
    + exists r. split; [exact Hr|]. split; congruence.
    + lia.
Qed.

(** ** The listing does not depend on the order of the table *)

Lemma listed_both_ways a b :
  listed a b -> listed b a ->
  purchased a = purchased b /\ created_at a = created_at b.
Proof.
  unfold listed, order_by, purchased_rank, created_before.
  destruct (purchased a) as [[|]|], (purchased b) as [[|]|];
    destruct (created_at a) as [ta|], (created_at b) as [tb|]; simpl;
    try discriminate; auto.
  all: rewrite !Z.leb_le; intros H1 H2; split; [reflexivity|f_equal; lia].
Qed.

Lemma sorted_listing_unique l1 l2 :
  StronglySorted listed l1 -> StronglySorted listed l2 ->
  Permutation l1 l2 -> keys_distinct l1 -> l1 = l2.
Proof.
  intros H1. revert l2. induction H1 as [|a l1 Hs1 IH Ha]; intros l2 H2 Hperm Hkeys.
  - apply Permutation_nil in Hperm. subst. reflexivity.
  - destruct H2 as [|b l2 Hs2 Hb].
    + apply Permutation_sym, Permutation_nil in Hperm. discriminate.
    + assert (E : a = b).
      { assert (Hin_a : In a (b :: l2))
          by (apply (Permutation_in _ Hperm); left; reflexivity).
        assert (Hin_b : In b (a :: l1))
          by (apply (Permutation_in _ (Permutation_sym Hperm)); left; reflexivity).
        destruct Hin_a as [->|Hin_a]; [reflexivity|].
        destruct Hin_b as [->|Hin_b]; [reflexivity|].
        rewrite Forall_forall in Ha, Hb.
        destruct (listed_both_ways a b (Ha b Hin_b) (Hb a Hin_a)) as [Ep Et].
        apply Hkeys; [left; reflexivity|right; exact Hin_b|exact Ep|exact Et]. }
      subst b. f_equal. apply IH.
      * exact Hs2.
      * exact (Permutation_cons_inv Hperm).
      * intros x y Hx Hy. apply Hkeys; right; assumption.
Qed.

(** X19: the listing depends on the rows of the table, not on the order in
    which they are kept: two states holding the same rows, no two of which
    tie on both [purchased] and [created_at], give the same list response. *)
Theorem listing_order_independent now now' db1 db2 :
  Permutation (shopping_items db1) (shopping_items db2) ->
  keys_distinct (shopping_items db1) ->
  response (handle now GetItems db1) = response (handle now' GetItems db2).
Proof.
  intros Hperm Hkeys. rewrite !handle_get_items. cbn [response].
  enough (E : sort_rows (shopping_items db1) = sort_rows (shopping_items db2))
    by (rewrite E; reflexivity).
  apply sorted_listing_unique.
  - apply sort_rows_sorted.
  - apply sort_rows_sorted.
  - rewrite <- (sort_rows_perm (shopping_items db1)),
            <- (sort_rows_perm (shopping_items db2)). exact Hperm.
  - intros a b Ha Hb. apply Hkeys.
    + apply (Permutation_in _ (Permutation_sym (sort_rows_perm _))). exact Ha.
    + apply (Permutation_in _ (Permutation_sym (sort_rows_perm _))). exact Hb.
Qed.

Lemma listing_order_independent_witness :
  let a := mkRow 1 "A" (Some 1) (Some true) (Some 10) in
  let b := mkRow 2 "B" (Some 1) (Some false) (Some 11) in
  (Permutation (shopping_items (mkDB [a; b] 2)) (shopping_items (mkDB [b; a] 2))
   /\ keys_distinct (shopping_items (mkDB [a; b] 2)))
  /\ response (handle 30 GetItems (mkDB [a; b] 2))
     = response (handle 31 GetItems (mkDB [b; a] 2)).
Proof.
  intros a b.
  assert (Hperm : Permutation (shopping_items (mkDB [a; b] 2))
                              (shopping_items (mkDB [b; a] 2)))
    by apply perm_swap.
  assert (Hkeys : keys_distinct (shopping_items (mkDB [a; b] 2))).
  { intros x y [<-|[<-|[]]] [<-|[<-|[]]] Ep Et;
      try reflexivity; discriminate. }
  split; [split; [exact Hperm|exact Hkeys]|].
  exact (listing_order_independent 30 31 _ _ Hperm Hkeys).
Defined.

(** ** Startup *)

Lemma database_query_table now sql values db :
  String.eqb sql SQL_CREATE = false ->
  database_query now sql values (Some db)
  = (fst (pool_query now sql values db), Some (snd (pool_query now sql values db))).
Proof.
  intros H. unfold database_query. rewrite H.
  destruct (pool_query now sql values db); reflexivity.
Qed.

Lemma database_query_missing now sql values :
  String.eqb sql SQL_CREATE = false ->
  database_query now sql values None = (None, None).
Proof. intros H. unfold database_query. rewrite H. reflexivity. Qed.

Lemma run_database_table now p :
  table_only p ->
  forall db,
    run_database now p (Some db)
    = mkServed (response (run now p db)) (Some (store (run now p db)))
               (submitted (run now p db)).
Proof.
  induction 1 as [res|sql values next Hsql _ IH]; intros db.
  - reflexivity.
  - rewrite run_query. cbn [run_database].
    rewrite (database_query_table _ _ _ _ Hsql), IH. reflexivity.
Qed.

Ltac table_only_step :=
  first [ apply table_only_respond
        | apply table_only_query; [reflexivity|intros [?|]]
        | match goal with
          | |- table_only (if ?b then _ else _) => destruct b
          | |- table_only (first_column _ ?rows _ _) =>
              is_var rows; destruct rows; cbn [first_column]
          end ].

Lemma app_table_only now req : table_only (app now req).
Proof.
  destruct req as [| |i|body|i body|i|]; cbn [app];
    unfold get_health, get_items, get_item, post_item, put_item, delete_item,
      get_stats, await, failure, res_json;
    repeat table_only_step.
Qed.

Lemma serve_request_table now req db :
  serve_request now req (Some db)
  = mkServed (response (handle now req db)) (Some (store (handle now req db)))
             (submitted (handle now req db)).
Proof. apply run_database_table, app_table_only. Qed.

(** X20: [initDB] creates the table when it is missing and otherwise leaves
    it alone: on a database without the table it yields the empty table with
    its sequence at the start; on a database that has the table it changes
    nothing, whatever the rows; in both cases it logs success, and running
    it again changes nothing. *)
Theorem initDB_creates_or_keeps now now' d :
  run_initDB now None = (DatabaseInitialized, Some initDB)
  /\ (forall db, run_initDB now (Some db) = (DatabaseInitialized, Some db))
  /\ run_initDB now' (snd (run_initDB now d))
     = (DatabaseInitialized, snd (run_initDB now d)).
Proof.
  split; [reflexivity|]. split; [reflexivity|].
  destruct d; reflexivity.
Qed.

(** X21: while the table does not exist, every request under [/api] that
    reaches the store is answered 500 with [success: false], a create
    without a name is still answered 400 before any query, the health check
    is answered 200, and no request creates the table. *)
Theorem without_table now req :
  let out := serve_request now req None in
  database out = None
  /\ match req with
     | GetHealth => status (answer out) = 200 /\ queries out = []
     | PostItem body =>
         if truthy_string (body_name body)
         then status (answer out) = 500
              /\ get_member "success" (payload (answer out)) = Some (JBool false)
         else answer out = bad_request /\ queries out = []
     | _ => status (answer out) = 500
            /\ get_member "success" (payload (answer out)) = Some (JBool false)
     end.
Proof.
  destruct req as [| |i|body|i body|i|]; cbv zeta; unfold serve_request;
    cbn [app];
    unfold get_health, get_items, get_item, post_item, put_item, delete_item,
      get_stats, await, failure, res_json;
    try (destruct (truthy_string (body_name body)); cbn [negb]);
    cbn [run_database];
    rewrite ?database_query_missing by reflexivity;
    cbn [run_database answer database queries status payload];
    repeat split.
Qed.

(** X22: after [initDB] on a database without the table, every session is
    served on the table: the table is never dropped, the database after the
    session is the state the handlers reach from the empty table, and that
    state is reachable. *)
Theorem startup_then_session now reqs :
  serve_requests reqs (snd (run_initDB now None)) = Some (serve reqs initDB)
  /\ reachable (serve reqs initDB).
Proof.
  split; [|apply serve_reachable, reachable_init].
  change (snd (run_initDB now None)) with (Some initDB).
  generalize initDB. induction reqs as [|[t req] reqs IH]; intros db; cbn [serve_requests serve].
  - reflexivity.
  - rewrite serve_request_table. cbn [database]. apply IH.
Qed.

(** ** The empty update *)

(** X23: an update whose body supplies nothing (every member absent or
    [null]) never changes the store, whatever the id and the state. *)
Theorem empty_update_is_noop now db i body :
  supplied (body_name body) = None ->
  supplied (body_quantity body) = None ->
  supplied (body_purchased body) = None ->
  store (handle now (PutItem i body) db) = db.
Proof.
  intros Hn Hq Hp. rewrite handle_put_item, exec_update_body. cbv zeta.
  destruct (values_fit body && in_int4 i); cbn [snd store]; [|reflexivity].
  rewrite map_untouched; [apply db_eta|]. intros r _.
  destruct (id_is (Some i) r); [|reflexivity].
  unfold updated. rewrite Hq, Hp.
  destruct (body_name body) as [| |nm]; try discriminate.
  all: destruct r; reflexivity.
Qed.

Lemma empty_update_is_noop_witness :
  let body := mkBody Null Absent Null in
  (supplied (body_name body) = None /\ supplied (body_quantity body) = None
   /\ supplied (body_purchased body) = None)
  /\ store (handle 30 (PutItem 1 body) (serve session initDB)) = serve session initDB.
Proof.
  intros body.
  split; [repeat split|].
  exact (empty_update_is_noop 30 (serve session initDB) 1 body eq_refl eq_refl eq_refl).
Defined.

(** ** Status codes *)

(** X14: the status codes the handlers answer with, whether or not the
    table exists: the health check always 200; the listing and the
    statistics 200 or 500; a lookup, an update and a delete 200, 404 or 500,
    never 400; a create 201, 400 or 500, never 404. *)
Theorem status_by_route now req d :
  let code := status (answer (serve_request now req d)) in
  match route req with
  | HealthRoute => code = 200
  | ItemsRoute | StatsRoute => code = 200 \/ code = 500
  | ItemRoute | UpdateRoute | DeleteRoute => code = 200 \/ code = 404 \/ code = 500
  | CreateRoute => code = 201 \/ code = 400 \/ code = 500
  end.
Proof.
  destruct d as [db|].
  - rewrite serve_request_table. cbn [answer].
    destruct req as [| |i|body|i body|i|]; cbn [route].
    + rewrite handle_get_health. reflexivity.
    + rewrite handle_get_items. left. reflexivity.
    + rewrite handle_get_item. cbv zeta. cbn [response].
      destruct (in_int4 i); [|auto]. destruct (filter _ _); auto.
    + rewrite handle_post_item.
      destruct (truthy_string (body_name body)); [|auto]. cbv zeta. cbn [response].
      destruct (fst _); auto.
    + rewrite handle_put_item. cbv zeta. cbn [response].
      destruct (fst _) as [[|r rows]|]; auto.
    + rewrite handle_delete_item. cbv zeta.
      destruct (in_int4 i); cbn [response]; [|auto]. destruct (filter _ _); auto.
    + rewrite handle_get_stats. left. reflexivity.
  - destruct req as [| |i|body|i body|i|]; cbv zeta; unfold serve_request;
      cbn [app route];
      unfold get_health, get_items, get_item, post_item, put_item, delete_item,
        get_stats, await, failure, res_json;
      try (destruct (truthy_string (body_name body)); cbn [negb]);
      cbn [run_database];
      rewrite ?database_query_missing by reflexivity;
      cbn [run_database answer status]; auto.
Qed.
